(** * FacebookConversationAnalysis: a shallow embedding and its properties

    The development follows [FacebookConversationAnalysis.py].  The file is
    organised as the program is: the Python built-ins the class relies on
    ([str] methods, [sorted], [Counter], [groupby]), the [datetime] and
    [dateutil] calendar arithmetic, the [bs4] tree queries, and then the
    class itself, method by method.

    Conventions.
    - A Python [str] is a [string]; a character stands for a code point
      below 256, and the character predicates ([isspace], digits, case)
      are Python's on that range.
    - A Python [int] is a [Z] or, for lengths and counts, a [nat].
    - True division [a / b] of two ints is the exact rational [a / b] (a
      [Q] in lowest terms); the rounding to a binary float is not
      modelled, and neither is the decimal rendering of [{:.2f}]: a
      printed line is kept as its format string and its arguments.
    - A raised exception is a [Raise e] result; statements that follow it
      do not run. Console output and files are fields of an explicit
      [world] that every effectful method threads through. *)

From Stdlib Require Import ZArith QArith Qfield Qround String Ascii Strings.Byte List Sorted Lia Bool.
From stdpp Require Import base option list gmap strings.

Set Warnings "-register-all".

Import ListNotations.
Local Open Scope string_scope.
Local Open Scope list_scope.

(** ** Exceptions and results *)

Inductive exn : Type :=
  | FileNotFoundError
  | PermissionError
  | UnicodeDecodeError
  | UnpicklingError
  | AttributeError
  | ValueError
  | IndexError
  | ZeroDivisionError
  | NonTermination.

Inductive result (A : Type) : Type :=
  | Ok (a : A)
  | Raise (e : exn).

Arguments Ok {A} a.
Arguments Raise {A} e.

Definition rbind {A B} (r : result A) (k : A -> result B) : result B :=
  match r with
  | Ok a => k a
  | Raise e => Raise e
  end.

Notation "'let?' x ':=' r 'in' k" := (rbind r (fun x => k))
  (at level 10, x pattern, r at level 100, k at level 200).

(** [for x in l: acc = f(acc, x)], stopping at the first exception. *)
Fixpoint for_each {A B} (f : B -> A -> result B) (l : list A) (acc : B) : result B :=
  match l with
  | [] => Ok acc
  | x :: l' => let? acc' := f acc x in for_each f l' acc'
  end.

(** ** Python built-ins *)

Module Py.

(** [c.isspace()] for a code point below 256: TAB, LF, VT, FF, CR, the
    separators FS GS RS US, SPACE, NEL and NBSP. *)
Definition isspace (c : ascii) : bool :=
  let n := N_of_ascii c in
  ((9 <=? n) && (n <=? 13) || (28 <=? n) && (n <=? 32) || (n =? 133) || (n =? 160))%N.

(** [c.isdecimal()], which is also what [\d] matches: 0 to 9. *)
Definition isdecimal (c : ascii) : bool :=
  let n := N_of_ascii c in ((48 <=? n) && (n <=? 57))%N.

Definition isupper (c : ascii) : bool :=
  let n := N_of_ascii c in ((65 <=? n) && (n <=? 90))%N.

Definition islower (c : ascii) : bool :=
  let n := N_of_ascii c in ((97 <=? n) && (n <=? 122))%N.

(** [c.lower()]: the capitals A-Z and, above 127, the capitals from
    192 to 222 (215, the multiplication sign, is not a letter) are 32
    below their small letter. *)
Definition lower_char (c : ascii) : ascii :=
  let n := N_of_ascii c in
  if (isupper c || (192 <=? n) && (n <=? 222) && negb (n =? 215))%N
  then ascii_of_N (n + 32) else c.

(** [c.upper()] of the letters a-z. The program raises the case of the
    four unit names only. *)
Definition upper_char (c : ascii) : ascii :=
  if islower c then ascii_of_N (N_of_ascii c - 32) else c.

Fixpoint lower (s : string) : string :=
  match s with
  | EmptyString => EmptyString
  | String c s' => String (lower_char c) (lower s')
  end.

(** [s.title()]: a letter that follows a letter is lowered, any other
    letter is raised. *)
Fixpoint title_from (prev_cased : bool) (s : string) : string :=
  match s with
  | EmptyString => EmptyString
  | String c s' =>
      let cased := isupper c || islower c in
      String (if prev_cased then lower_char c else upper_char c) (title_from cased s')
  end.

Definition title (s : string) : string := title_from false s.

(** [s[:n]] *)
Fixpoint take_str (n : nat) (s : string) : string :=
  match n, s with
  | S n', String c s' => String c (take_str n' s')
  | _, _ => EmptyString
  end.

(** [s.split()]: the maximal runs of non-whitespace characters. [cur] is
    the run being read. *)
Fixpoint split_from (cur : string) (s : string) : list string :=
  match s with
  | EmptyString => if String.eqb cur "" then [] else [cur]
  | String c s' =>
      if isspace c
      then (if String.eqb cur "" then split_from "" s' else cur :: split_from "" s')
      else split_from (cur ++ String c "") s'
  end.

Definition split (s : string) : list string := split_from "" s.

(** [s.replace(old, new)] for a non-empty [old]: occurrences are found
    left to right and do not overlap. [skip] counts the characters of an
    occurrence still to be dropped. *)
Fixpoint replace_from (old new : string) (skip : nat) (s : string) : string :=
  match s with
  | EmptyString => EmptyString
  | String c s' =>
      match skip with
      | S k => replace_from old new k s'
      | O =>
          if String.prefix old s
          then new ++ replace_from old new (String.length old - 1) s'
          else String c (replace_from old new 0 s')
      end
  end.

(** For an empty [old] Python puts [new] before every character and at
    the end. *)
Fixpoint intersperse_str (new : string) (s : string) : string :=
  match s with
  | EmptyString => new
  | String c s' => new ++ String c (intersperse_str new s')
  end.

Definition replace (s old new : string) : string :=
  if String.eqb old "" then intersperse_str new s else replace_from old new 0 s.

(** [sorted(l)]: a stable sort; [leb] is the order [<=] of the elements. *)
Fixpoint insert_sorted {A} (leb : A -> A -> bool) (x : A) (l : list A) : list A :=
  match l with
  | [] => [x]
  | y :: l' => if leb x y then x :: l else y :: insert_sorted leb x l'
  end.

Definition sorted {A} (leb : A -> A -> bool) (l : list A) : list A :=
  fold_right (insert_sorted leb) [] l.

(** [<=] on [(str, int)] tuples: by the string, then by the number. *)
Definition item_leb (a b : string * nat) : bool :=
  match String.compare (fst a) (fst b) with
  | Lt => true
  | Eq => Nat.leb (snd a) (snd b)
  | Gt => false
  end.

(** [dict(Counter(l))]: the keys in order of first appearance, each with
    its number of occurrences. *)
Fixpoint counter_incr (k : string) (c : list (string * nat)) : list (string * nat) :=
  match c with
  | [] => [(k, 1)]
  | (k', n) :: c' =>
      if String.eqb k k' then (k', S n) :: c' else (k', n) :: counter_incr k c'
  end.

Definition Counter (l : list string) : list (string * nat) :=
  fold_left (fun c k => counter_incr k c) l [].

(** [itertools.groupby(l, key)]: the maximal runs of consecutive elements
    with equal keys. *)
Fixpoint groupby {A} (key : A -> string) (l : list A) : list (string * list A) :=
  match l with
  | [] => []
  | x :: l' =>
      match groupby key l' with
      | (k, g) :: rest =>
          if String.eqb (key x) k then (k, x :: g) :: rest
          else (key x, [x]) :: (k, g) :: rest
      | [] => [(key x, [x])]
      end
  end.

(** [max(d, key=d.get)] over a dict in insertion order: the first key
    whose value is the largest. *)
Fixpoint max_by_value (best : string * nat) (c : list (string * nat)) : string * nat :=
  match c with
  | [] => best
  | (k, n) :: c' => max_by_value (if Nat.ltb (snd best) n then (k, n) else best) c'
  end.

End Py.

(** ** The markup tree of [bs4] *)

Module bs4.

(** A parsed document: a text node, or a tag with the values of its
    [class] attribute and its children in document order. *)
Inductive node : Type :=
  | NavigableString (s : string)
  | Tag (name : string) (classes : list string) (contents : list node).

(** A node together with [node.next_sibling], as a query returns it. *)
Record element : Type := Element { el : node; next_sibling : option node }.

(** [node.string]: the text of a text node; for a tag, the [.string] of
    its only child, and [None] when it has no child or several. *)
Fixpoint string_of (n : node) : option string :=
  match n with
  | NavigableString s => Some s
  | Tag _ _ cs =>
      match cs with
      | [c] => string_of c
      | _ => None
      end
  end.

(** [node.descendants]: every node below [n], in document order. *)
Fixpoint descendants (n : node) : list element :=
  match n with
  | NavigableString _ => []
  | Tag _ _ cs =>
      (fix walk (cs : list node) : list element :=
         match cs with
         | [] => []
         | c :: cs' => Element c (head cs') :: descendants c ++ walk cs'
         end) cs
  end.

Definition has_class (c : string) (n : node) : bool :=
  match n with
  | NavigableString _ => false
  | Tag _ classes _ => existsb (String.eqb c) classes
  end.

(** [n.find_all(class_=c)] and [n.find(class_=c)] *)
Definition find_all (c : string) (n : node) : list element :=
  filter (fun e => has_class c (el e)) (descendants n).

Definition find (c : string) (n : node) : option element :=
  head (find_all c n).

End bs4.

(** ** What the program takes from its platform

    The local time zone names of [time.tzname] (they are what [%Z]
    accepts besides UTC and GMT), the [pickle] wire format and the
    [lxml] parser behind [BeautifulSoup(open(f, encoding='utf8'), 'lxml')]
    are not part of the program; they are its parameters. *)

Record platform : Type := Platform {
  tzname : string * string;
  daylight : bool;
  pickle_dumps : list string -> list byte;
  pickle_loads : list byte -> result (list string);
  BeautifulSoup : list byte -> result bs4.node
}.

(** ** Dates and times: [datetime] *)

Module datetime.

(** A naive [datetime]; the program never sets seconds or a zone. *)
Record t : Type := mk { year : Z; month : Z; day : Z; hour : Z; minute : Z }.

Definition is_leap (y : Z) : bool :=
  ((y mod 4 =? 0) && (negb (y mod 100 =? 0) || (y mod 400 =? 0)))%Z.

Definition days_in_month (y m : Z) : Z :=
  (if m =? 2 then (if is_leap y then 29 else 28)
   else if (m =? 4) || (m =? 6) || (m =? 9) || (m =? 11) then 30 else 31)%Z.

Definition days_before_year (y : Z) : Z :=
  (let p := y - 1 in p * 365 + p / 4 - p / 100 + p / 400)%Z.

Definition days_before_month (y m : Z) : Z :=
  (nth (Z.to_nat (m - 1)) [0; 31; 59; 90; 120; 151; 181; 212; 243; 273; 304; 334] 0
   + (if (2 <? m) && is_leap y then 1 else 0))%Z.

Definition toordinal (d : t) : Z :=
  (days_before_year (year d) + days_before_month (year d) (month d) + day d)%Z.

(** The constructor checks every field and raises [ValueError]. *)
Definition make (y m d H M : Z) : result t :=
  if ((1 <=? y) && (y <=? 9999) && (1 <=? m) && (m <=? 12)
      && (1 <=? d) && (d <=? days_in_month y m)
      && (0 <=? H) && (H <=? 23) && (0 <=? M) && (M <=? 59))%Z
  then Ok (mk y m d H M)
  else Raise ValueError.

(** The values the constructor lets through. *)
Definition valid (d : t) : Prop :=
  (1 <= year d <= 9999 /\ 1 <= month d <= 12 /\
   1 <= day d <= days_in_month (year d) (month d) /\
   0 <= hour d <= 23 /\ 0 <= minute d <= 59)%Z.

(** [a < b] and [a > b] compare the fields as tuples. *)
Definition lt (a b : t) : bool :=
  ((year a <? year b) || (year a =? year b) &&
   ((month a <? month b) || (month a =? month b) &&
    ((day a <? day b) || (day a =? day b) &&
     ((hour a <? hour b) || (hour a =? hour b) && (minute a <? minute b)))))%Z.

Definition gt (a b : t) : bool := lt b a.

(** [(a - b).days]: the difference in minutes, in whole days rounded
    down (a [timedelta] keeps [0 <= seconds < 86400]). *)
Definition minutes_since_epoch (d : t) : Z :=
  ((toordinal d * 24 + hour d) * 60 + minute d)%Z.

Definition sub_days (a b : t) : Z :=
  ((minutes_since_epoch a - minutes_since_epoch b) / 1440)%Z.

(** *** [strptime]

    [_strptime] turns the format into a regular expression, one named
    group per directive, and matches it case-insensitively at the start
    of the text. A group is an alternation of fixed-length sequences of
    character classes; the alternatives are tried in order. *)

Definition cls : Type := ascii -> bool.

Definition digit_between (lo hi : N) : cls :=
  fun c => let n := N_of_ascii c in ((48 + lo <=? n) && (n <=? 48 + hi))%N.

Definition chr_ci (p : ascii) : cls :=
  fun c => Ascii.eqb (Py.lower_char c) (Py.lower_char p).

Definition literal (s : string) : list cls := map chr_ci (list_ascii_of_string s).

Definition weekday_names : list string :=
  ["monday"; "tuesday"; "wednesday"; "thursday"; "friday"; "saturday"; "sunday"].

Definition month_names : list string :=
  ["january"; "february"; "march"; "april"; "may"; "june"; "july"; "august";
   "september"; "october"; "november"; "december"].

Definition zone_names (P : platform) : list string :=
  ["utc"; "gmt"; Py.lower (fst (tzname P))]
  ++ (if daylight P then [Py.lower (snd (tzname P))] else []).

(** Names are tried longest first. *)
Definition longest_first (l : list string) : list string :=
  Py.sorted (fun a b => Nat.leb (String.length b) (String.length a)) l.

(** The directives of the program's formats; any other one is reported
    as a bad directive. *)
Definition directive (P : platform) (d : ascii) : option (list (list cls)) :=
  match d with
  | "d"%char => Some [[digit_between 3 3; digit_between 0 1]; [digit_between 1 2; Py.isdecimal];
                      [digit_between 0 0; digit_between 1 9]; [digit_between 1 9];
                      [chr_ci " "; digit_between 1 9]]
  | "m"%char => Some [[digit_between 1 1; digit_between 0 2];
                      [digit_between 0 0; digit_between 1 9]; [digit_between 1 9]]
  | "y"%char => Some [[Py.isdecimal; Py.isdecimal]]
  | "Y"%char => Some [[Py.isdecimal; Py.isdecimal; Py.isdecimal; Py.isdecimal]]
  | "H"%char => Some [[digit_between 2 2; digit_between 0 3]; [digit_between 0 1; Py.isdecimal];
                      [Py.isdecimal]]
  | "M"%char => Some [[digit_between 0 5; Py.isdecimal]; [Py.isdecimal]]
  | "A"%char => Some (map literal (longest_first weekday_names))
  | "B"%char => Some (map literal (longest_first month_names))
  | "Z"%char => Some (map literal (longest_first (zone_names P)))
  | "%"%char => Some [[chr_ci "%"]]
  | _ => None
  end.

Inductive item : Type :=
  | Lit (c : ascii)
  | Spaces
  | Group (d : ascii) (alts : list (list cls)).

(** A run of whitespace in the format stands for [\s+]. *)
Fixpoint compile_from (P : platform) (in_spaces : bool) (fmt : string) : option (list item) :=
  match fmt with
  | EmptyString => Some []
  | String c rest =>
      if Ascii.eqb c "%" then
        match rest with
        | EmptyString => None
        | String d rest' =>
            match directive P d, compile_from P false rest' with
            | Some alts, Some its => Some (Group d alts :: its)
            | _, _ => None
            end
        end
      else if Py.isspace c then
        match compile_from P true rest with
        | Some its => Some (if in_spaces then its else Spaces :: its)
        | None => None
        end
      else
        match compile_from P false rest with
        | Some its => Some (Lit c :: its)
        | None => None
        end
  end.

Definition compile (P : platform) (fmt : string) : option (list item) :=
  compile_from P false fmt.

(** One alternative at the head of [s]: the text it matched and the rest. *)
Fixpoint match_alt (a : list cls) (s : string) : option (string * string) :=
  match a with
  | [] => Some (EmptyString, s)
  | p :: a' =>
      match s with
      | EmptyString => None
      | String c s' =>
          if p c then
            match match_alt a' s' with
            | Some (m, r) => Some (String c m, r)
            | None => None
            end
          else None
      end
  end.

(** The alternatives in order; when what follows fails, the next one. *)
Fixpoint match_alts {R} (alts : list (list cls)) (s : string)
    (k : string -> string -> option R) : option R :=
  match alts with
  | [] => None
  | a :: alts' =>
      match match_alt a s with
      | Some (m, r) =>
          match k m r with
          | Some x => Some x
          | None => match_alts alts' s k
          end
      | None => match_alts alts' s k
      end
  end.

(** [\s+] is greedy and gives characters back one at a time. *)
Fixpoint match_more_spaces {R} (s : string) (k : string -> option R) : option R :=
  match s with
  | EmptyString => k s
  | String c s' =>
      if Py.isspace c then
        match match_more_spaces s' k with
        | Some x => Some x
        | None => k s
        end
      else k s
  end.

Definition match_spaces {R} (s : string) (k : string -> option R) : option R :=
  match s with
  | EmptyString => None
  | String c s' => if Py.isspace c then match_more_spaces s' k else None
  end.

(** The groups found, the latest first, and the text left over. *)
Fixpoint match_items (its : list item) (found : list (ascii * string)) (s : string)
    : option (list (ascii * string) * string) :=
  match its with
  | [] => Some (found, s)
  | Lit p :: its' =>
      match s with
      | EmptyString => None
      | String c s' => if chr_ci p c then match_items its' found s' else None
      end
  | Spaces :: its' => match_spaces s (fun r => match_items its' found r)
  | Group d alts :: its' =>
      match_alts alts s (fun m r => match_items its' ((d, m) :: found) r)
  end.

(** [int(s)] of a matched group: decimal digits, possibly after a space. *)
Fixpoint int_from (acc : Z) (s : string) : Z :=
  match s with
  | EmptyString => acc
  | String c s' =>
      if Py.isdecimal c then int_from (acc * 10 + Z.of_N (N_of_ascii c - 48)) s'
      else int_from acc s'
  end.

Definition int (s : string) : Z := int_from 0 s.

(** [names.index(x)], counting from [i]. *)
Fixpoint index_from (i : Z) (x : string) (names : list string) : Z :=
  match names with
  | [] => i
  | n :: names' => if String.eqb x n then i else index_from (i + 1) x names'
  end.

Record fields : Type :=
  Fields { f_year : option Z; f_month : Z; f_day : Z; f_hour : Z; f_minute : Z }.

Definition set_field (f : fields) (g : ascii * string) : fields :=
  let (d, text) := g in
  match d with
  | "y"%char =>
      let y := int text in
      Fields (Some (if y <=? 68 then y + 2000 else y + 1900)%Z)
             (f_month f) (f_day f) (f_hour f) (f_minute f)
  | "Y"%char => Fields (Some (int text)) (f_month f) (f_day f) (f_hour f) (f_minute f)
  | "m"%char => Fields (f_year f) (int text) (f_day f) (f_hour f) (f_minute f)
  | "B"%char =>
      Fields (f_year f) (index_from 1 (Py.lower text) month_names)
             (f_day f) (f_hour f) (f_minute f)
  | "d"%char => Fields (f_year f) (f_month f) (int text) (f_hour f) (f_minute f)
  | "H"%char => Fields (f_year f) (f_month f) (f_day f) (int text) (f_minute f)
  | "M"%char => Fields (f_year f) (f_month f) (f_day f) (f_hour f) (int text)
  | _ => f
  end.

(** [datetime.strptime(data, fmt)]. A format that does not compile, text
    that does not match and text left over are all [ValueError]; so is a
    date that does not exist. The weekday and the zone name are matched
    and then ignored. *)
Definition strptime (P : platform) (data fmt : string) : result t :=
  match compile P fmt with
  | None => Raise ValueError
  | Some its =>
      match match_items its [] data with
      | None => Raise ValueError
      | Some (found, rest) =>
          if String.eqb rest "" then
            let f := fold_left set_field (rev found) (Fields None 1 1 0 0) in
            make (match f_year f with Some y => y | None => 1900 end)
                 (f_month f) (f_day f) (f_hour f) (f_minute f)
          else Raise ValueError
      end
  end.

(** *** [strftime], for the directives of the program's formats *)

Definition digit_char (n : Z) : ascii := ascii_of_N (48 + Z.to_N (n mod 10)).

Definition two_digits (n : Z) : string :=
  String (digit_char (n / 10)) (String (digit_char n) EmptyString).

Fixpoint strftime (d : t) (fmt : string) : string :=
  match fmt with
  | EmptyString => EmptyString
  | String c rest =>
      if Ascii.eqb c "%" then
        match rest with
        | EmptyString => String c EmptyString
        | String x rest' =>
            (match x with
             | "d"%char => two_digits (day d)
             | "m"%char => two_digits (month d)
             | "y"%char => two_digits (year d mod 100)
             | "H"%char => two_digits (hour d)
             | "M"%char => two_digits (minute d)
             | "%"%char => "%"
             | _ => String c (String x EmptyString)
             end) ++ strftime d rest'
        end
      else String c (strftime d rest)
  end.

End datetime.

(** ** Calendar differences: [dateutil.relativedelta] *)

Module dateutil.

Import datetime.

(** The two fields of a [relativedelta] the program reads. *)
Record delta : Type := Delta { years : Z; months : Z }.

Definition sign (x : Z) : Z := (if x <? 0 then -1 else 1)%Z.

(** [_set_months]: split a month count into years and months of the
    same sign. *)
Definition set_months (ms : Z) : delta :=
  (if 11 <? Z.abs ms
   then let s := sign ms in Delta ((ms * s / 12) * s) ((ms * s mod 12) * s)
   else Delta 0 ms)%Z.

(** [dt + delta]: move by whole months, then clip the day to the length
    of the month reached; [replace] checks the year. *)
Definition add (r : delta) (dt : t) : result t :=
  (let y := year dt + years r in
   let m := month dt in
   let '(y, m) :=
     if months r =? 0 then (y, m)
     else
       let m := m + months r in
       if 12 <? m then (y + 1, m - 12)
       else if m <? 1 then (y - 1, m + 12)
       else (y, m) in
   let d := Z.min (days_in_month y m) (day dt) in
   make y m d (hour dt) (minute dt))%Z.

(** The loop of the constructor: while the moved date has overshot
    [dt1], take one month back. [fuel] bounds the number of rounds. *)
Fixpoint adjust (fuel : nat) (compare : t -> t -> bool) (increment : Z)
    (dt1 dt2 : t) (ms : Z) (dtm : t) : result Z :=
  if compare dt1 dtm then
    match fuel with
    | O => Raise NonTermination
    | S fuel' =>
        let ms := (ms + increment)%Z in
        let? dtm := add (set_months ms) dt2 in
        adjust fuel' compare increment dt1 dt2 ms dtm
    end
  else Ok ms.

Definition rounds : nat := 2.

(** [relativedelta(dt1, dt2)] *)
Definition relativedelta (dt1 dt2 : t) : result delta :=
  let ms := ((year dt1 - year dt2) * 12 + (month dt1 - month dt2))%Z in
  let? dtm := add (set_months ms) dt2 in
  let '(compare, increment) := if lt dt1 dt2 then (gt, 1%Z) else (lt, (-1)%Z) in
  let? ms := adjust rounds compare increment dt1 dt2 ms dtm in
  Ok (set_months ms).

End dateutil.

(** ** The world: files, console, chart windows *)

Inductive arg : Type :=
  | AStr (s : string)
  | AInt (n : Z)
  | AFloat (q : Q).

(** [print(template.format(args))] *)
Record line : Type := Line { template : string; args : list arg }.

(** The calls that the program makes to [pyplot] for one chart, by
    their arguments: [plt.plot(plot_x, plot_y)], [plt.xticks] with the
    positions and the labels, [plt.xlim] with the two limits it is
    given, [plt.xlabel], [plt.ylabel] and [plt.title]. The record is
    filed when [plt.show()] is called. What matplotlib draws from these
    calls, for instance how it widens two equal limits, is the
    library's business and is not modelled. *)
Record figure : Type := Figure {
  plot_x : list nat;
  plot_y : list nat;
  xticks : list nat * list string;
  xlim : Z * Z;
  xlabel : string;
  ylabel : string;
  fig_title : string
}.

(** A file is known by the name it is opened with; two spellings of
    one path are two names here. [shown] holds the charts for which
    [plt.show()] was called. *)
Record world : Type := World {
  files : gmap string (list byte);
  unwritable : gset string;
  stdout : list line;
  shown : list figure
}.

Definition M (A : Type) : Type := world -> result A * world.

Definition ret {A} (a : A) : M A := fun w => (Ok a, w).

Definition bind {A B} (m : M A) (k : A -> M B) : M B :=
  fun w =>
    match m w with
    | (Ok a, w') => k a w'
    | (Raise e, w') => (Raise e, w')
    end.

Definition lift {A} (r : result A) : M A := fun w => (r, w).

Declare Scope io_scope.
Delimit Scope io_scope with io.
Notation "x <- m ;; k" := (bind m (fun x => k))
  (at level 100, m at next level, k at level 200, right associativity) : io_scope.
Notation "m ;; k" := (bind m (fun _ => k))
  (at level 100, k at level 200, right associativity) : io_scope.
Local Open Scope io_scope.

(** The world after some more lines on the console, and after a file
    has been written. *)
Definition say (ls : list line) (w : world) : world :=
  World (files w) (unwritable w) (stdout w ++ ls) (shown w).

Definition put (name : string) (b : list byte) (w : world) : world :=
  World (<[name := b]> (files w)) (unwritable w) (stdout w) (shown w).

Definition print (l : line) : M unit :=
  fun w => (Ok tt, say [l] w).

(** [open(name, 'rb').read()] *)
Definition read_file (name : string) : M (list byte) :=
  fun w =>
    match files w !! name with
    | Some b => (Ok b, w)
    | None => (Raise FileNotFoundError, w)
    end.

(** [open(name, 'wb').write(b)]: the file is created or replaced. *)
Definition write_file (name : string) (b : list byte) : M unit :=
  fun w =>
    if decide (name ∈ unwritable w) then (Raise PermissionError, w)
    else (Ok tt, put name b w).

Definition show (f : figure) : M unit :=
  fun w => (Ok tt, World (files w) (unwritable w) (stdout w) (shown w ++ [f])).

(** [for x in l: body(x)] *)
Fixpoint for_ {A} (l : list A) (body : A -> M unit) : M unit :=
  match l with
  | [] => ret tt
  | x :: l' => body x ;; for_ l' body
  end.

(** [l[i]], [l[-1]] and [str(x)] of a value that may be [None] *)
Definition getitem {A} (l : list A) (i : nat) : result A :=
  match l !! i with
  | Some x => Ok x
  | None => Raise IndexError
  end.

Definition getitem_last {A} (l : list A) : result A :=
  match last l with
  | Some x => Ok x
  | None => Raise IndexError
  end.

Definition str (o : option string) : string :=
  match o with
  | Some s => s
  | None => "None"
  end.

(** Reading an attribute of [None] raises [AttributeError]. *)
Definition not_none {A} (o : option A) : result A :=
  match o with
  | Some x => Ok x
  | None => Raise AttributeError
  end.

(** [a / b] on ints *)
Definition true_div (a b : Z) : result Q :=
  if (b =? 0)%Z then Raise ZeroDivisionError
  else Ok (Qred (inject_Z a / inject_Z b)).

(** ** The class [FacebookConversationAnalysis] *)

Record FacebookConversationAnalysis : Type := Self {
  full_date_format : string;
  date_format : string;
  time_format : string;
  data : list (list string);
  total_msgs : nat
}.

Definition pickle_file_names : list string :=
  ["pickles/senders.pickle"; "pickles/messages.pickle";
   "pickles/dates.pickle"; "pickles/times.pickle"].

Section Methods.

Context (P : platform).

(** [save_pickle(data, name)] *)
Definition save_pickle (data : list string) (name : string) : M unit :=
  write_file name (pickle_dumps P data) ;;
  print (Line "[INFO]: {} saved" [AStr name]).

(** [load_pickle(name)]: the line is printed once the file is open,
    before its contents are decoded. *)
Definition load_pickle (name : string) : M (list string) :=
  b <- read_file name ;;
  print (Line "[INFO]: {} loaded" [AStr name]) ;;
  lift (pickle_loads P b).

(** The body of the inner loop of [extract_data_from_html_file]: one
    message element, appended to the four lists. *)
Definition extract_chat (self : FacebookConversationAnalysis)
    (acc : list string * list string * list string * list string)
    (chat : bs4.element)
    : result (list string * list string * list string * list string) :=
  let '(users, msgs, dates, times) := acc in
  let? user_tag := not_none (bs4.find "user" (bs4.el chat)) in
  let user := str (bs4.string_of (bs4.el user_tag)) in
  let? sibling := not_none (bs4.next_sibling chat) in
  let msg := str (bs4.string_of sibling) in
  let? meta_tag := not_none (bs4.find "meta" (bs4.el chat)) in
  let? meta := not_none (bs4.string_of (bs4.el meta_tag)) in
  let? full_date := datetime.strptime P (Py.replace meta "+01" "") (full_date_format self) in
  let date := datetime.strftime full_date (date_format self) in
  let time := datetime.strftime full_date (time_format self) in
  Ok (users ++ [user], msgs ++ [msg], dates ++ [date], times ++ [time]).

(** The two nested loops over the parsed document. The progress bar of
    [tqdm] writes to the error stream, which is not part of the world. *)
Definition extract_soup (self : FacebookConversationAnalysis) (soup : bs4.node)
    : result (list (list string)) :=
  let? (users, msgs, dates, times) :=
    for_each
      (fun acc thread => for_each (extract_chat self) (bs4.find_all "message" (bs4.el thread)) acc)
      (bs4.find_all "thread" soup)
      ([], [], [], []) in
  Ok [users; msgs; dates; times].

(** [extract_data_from_html_file(html_file)] *)
Definition extract_data_from_html_file (self : FacebookConversationAnalysis)
    (html_file : string) : M (list (list string)) :=
  print (Line "[INFO]: Extracting data from {}" [AStr html_file]) ;;
  b <- read_file html_file ;;
  soup <- lift (BeautifulSoup P b) ;;
  data <- lift (extract_soup self soup) ;;
  print (Line "[INFO]: Data extracted from {}" [AStr html_file]) ;;
  ret data.

(** [__init__(html_file, get_data)]. Until the last two assignments the
    object has no [data] and no [total_msgs]; the methods called before
    them read neither. *)
Definition init (html_file : string) (get_data : bool) : M FacebookConversationAnalysis :=
  let self := Self "%A, %d %B %Y at %H:%M %Z" "%d/%m/%y" "%H:%M" [] 0 in
  data <-
    (if get_data then
       extract_data_from_html_file self html_file ;;
       data <- extract_data_from_html_file self html_file ;;
       for_ (imap (fun n name => (n, name)) pickle_file_names)
            (fun '(n, name) => d <- lift (getitem data n) ;; save_pickle d name) ;;
       ret data
     else
       fold_left
         (fun acc name => data <- acc ;; d <- load_pickle name ;; ret (data ++ [d]))
         pickle_file_names (ret [])) ;;
  senders <- lift (getitem data 0) ;;
  ret (Self (full_date_format self) (date_format self) (time_format self)
            data (length senders)).

(** [calculate_total_messages_per_user(users)] *)
Definition calculate_total_messages_per_user (self : FacebookConversationAnalysis)
    (users : list string) : M unit :=
  let msgs_freq := Py.Counter users in
  match Py.sorted Py.item_leb msgs_freq with
  | [] => lift (Raise ValueError)
  | items =>
      let unique_users := map fst items in
      let messages_per_user := map snd items in
      for_ (seq 0 (length unique_users))
        (fun i =>
           user <- lift (getitem unique_users i) ;;
           n <- lift (getitem messages_per_user i) ;;
           q <- lift (true_div (Z.of_nat n) (Z.of_nat (total_msgs self))) ;;
           let msgs_percentage := Qred (q * 100) in
           print (Line "[INFO]: Messages sent by {}: {} ({:.2f}%)"
                       [AStr user; AInt (Z.of_nat n); AFloat msgs_percentage]))
  end.

(** [calculate_average_words_per_message(msgs)] *)
Definition count_words (msgs : list string) : nat :=
  fold_left (fun total_words msg => total_words + length (Py.split msg)) msgs 0.

Definition calculate_average_words_per_message (self : FacebookConversationAnalysis)
    (msgs : list string) : M unit :=
  let total_words := count_words msgs in
  avg_words_per_msg <- lift (true_div (Z.of_nat total_words) (Z.of_nat (total_msgs self))) ;;
  print (Line "[INFO]: Average Words/Message: {:.2f}" [AFloat avg_words_per_msg]).

(** [calculate_average_messages_per_unit_time(dates, unit_time)]. The
    branch on [unit_time] that picks the interval is [interval_of]. *)
Definition interval_of (unit_time : string) (delta_dt_days : Z) (delta_du : dateutil.delta) : Z :=
  if String.eqb unit_time "day" then delta_dt_days
  else if String.eqb unit_time "week" then Qceiling (inject_Z delta_dt_days / 7)
  else if String.eqb unit_time "month"
       then (dateutil.years delta_du * 12 + dateutil.months delta_du)%Z
  else dateutil.years delta_du.

Definition calculate_average_messages_per_unit_time (self : FacebookConversationAnalysis)
    (dates : list string) (unit_time : string) : M unit :=
  oldest <- lift (getitem_last dates) ;;
  first_date <- lift (datetime.strptime P oldest (date_format self)) ;;
  newest <- lift (getitem dates 0) ;;
  last_date <- lift (datetime.strptime P newest (date_format self)) ;;
  let delta_dt_days := datetime.sub_days last_date first_date in
  delta_du <- lift (dateutil.relativedelta last_date first_date) ;;
  if negb (existsb (String.eqb unit_time) ["day"; "week"; "month"; "year"]) then
    print (Line "[ERROR]: Please choose a correct value for unit_time" [])
  else
    let interval := interval_of unit_time delta_dt_days delta_du in
    avg_messages_per_day <- lift (true_div (Z.of_nat (total_msgs self)) interval) ;;
    print (Line "[INFO]: Average Messages/{}: {:.2f}"
                [AStr (Py.title unit_time); AFloat avg_messages_per_day]).

(** [find_most_active_day(dates)]; [max] of an empty dict is a
    [ValueError]. *)
Definition find_most_active_day (dates : list string) : M unit :=
  match Py.Counter dates with
  | [] => lift (Raise ValueError)
  | first :: others =>
      let date := fst (Py.max_by_value first others) in
      let num_msgs := snd (Py.max_by_value first others) in
      seconds_per_msg <- lift (true_div 86400 (Z.of_nat num_msgs)) ;;
      print (Line ("[INFO]: Most active day was {} with {} messages sent. "
                   ++ "Thats a message every {:.2f} seconds!")
                  [AStr date; AInt (Z.of_nat num_msgs); AFloat seconds_per_msg])
  end.

(** The grouping loop of [plot_total_msgs_per_hour]: the sorted times
    bucketed by their first two characters. *)
Definition group_by_hour (times : list string) : list nat * list string :=
  fold_left
    (fun '(msgs_per_hour, hours) '(key, group) =>
       (msgs_per_hour ++ [length group], hours ++ [key]))
    (Py.groupby (Py.take_str 2) (Py.sorted String.leb times))
    ([], []).

(** [plot_total_msgs_per_hour(times, title, x_label, y_label)] *)
Definition plot_total_msgs_per_hour (self : FacebookConversationAnalysis)
    (times : list string) (title x_label y_label : string) : M unit :=
  let '(msgs_per_hour, hours) := group_by_hour times in
  show (Figure (seq 0 (length msgs_per_hour)) msgs_per_hour
               (seq 0 (length hours), hours)
               (0%Z, (Z.of_nat (length hours) - 1)%Z)
               x_label y_label title).

End Methods.

(** ** A platform to run the program on

    A wire format for a list of strings that meets the round-trip law
    expected of [pickle] (every string is closed by a zero byte; the
    bytes 0 and 1 inside a string are escaped by a byte 1), a parser that
    knows one document, and the time zone names of Dublin. *)

Module Framing.

Definition enc_char (c : ascii) : list byte :=
  let b := byte_of_ascii c in
  if Byte.eqb b x00 then [x01; x02]
  else if Byte.eqb b x01 then [x01; x01]
  else [b].

Fixpoint enc_str (s : string) : list byte :=
  match s with
  | EmptyString => [x00]
  | String c s' => enc_char c ++ enc_str s'
  end.

Definition dumps (l : list string) : list byte := flat_map enc_str l.

Fixpoint loads_from (cur : string) (bs : list byte) : result (list string) :=
  match bs with
  | [] => if String.eqb cur "" then Ok [] else Raise UnpicklingError
  | b :: bs' =>
      if Byte.eqb b x00 then
        let? l := loads_from "" bs' in Ok (cur :: l)
      else if Byte.eqb b x01 then
        match bs' with
        | [] => Raise UnpicklingError
        | b2 :: bs'' =>
            if Byte.eqb b2 x01 then loads_from (cur ++ String (ascii_of_byte x01) "") bs''
            else if Byte.eqb b2 x02 then loads_from (cur ++ String (ascii_of_byte x00) "") bs''
            else Raise UnpicklingError
        end
      else loads_from (cur ++ String (ascii_of_byte b) "") bs'
  end.

Definition loads (bs : list byte) : result (list string) := loads_from "" bs.

End Framing.

Module Sample.

Import bs4.

Definition message (user meta : string) : node :=
  Tag "div" ["message"]
    [Tag "div" ["message_header"]
       [Tag "span" ["user"] [NavigableString user];
        Tag "span" ["meta"] [NavigableString meta]]].

Definition soup : node :=
  Tag "[document]" []
    [Tag "html" []
       [Tag "body" []
          [Tag "div" ["thread"]
             [NavigableString "Alice, Bob";
              message "Alice" "Tuesday, 4 April 2017 at 09:45 UTC+01";
              Tag "p" [] [NavigableString "see you  then"];
              message "Bob" "Monday, 3 April 2017 at 22:05 UTC+01";
              Tag "p" [] [NavigableString "ok"];
              message "Alice" "Monday, 3 April 2017 at 09:15 UTC+01";
              Tag "p" [] []]]]].

Definition html : list byte := list_byte_of_string "<html>171</html>".

Definition parser (b : list byte) : result node :=
  if String.eqb (string_of_list_byte b) (string_of_list_byte html) then Ok soup
  else Ok (Tag "[document]" [] []).

Definition platform : platform :=
  Platform ("GMT", "IST") true Framing.dumps Framing.loads parser.

(** A cache whose four lists have different lengths. *)
Definition uneven_cache : world :=
  World {[ "pickles/senders.pickle" := Framing.dumps [];
           "pickles/messages.pickle" := Framing.dumps ["hi"];
           "pickles/dates.pickle" := Framing.dumps ["20/01/23"; "10/01/23"];
           "pickles/times.pickle" := Framing.dumps ["09:15"] ]} ∅ [] [].

(** A world with the document and no cache yet. *)
Definition world : world :=
  World {[ "171.html" := html ]} ∅ [] [].

(** The object that [__init__] builds from that document. *)
Definition self : FacebookConversationAnalysis :=
  Self "%A, %d %B %Y at %H:%M %Z" "%d/%m/%y" "%H:%M"
       [["Alice"; "Bob"; "Alice"]; ["see you  then"; "ok"; "None"];
        ["04/04/17"; "03/04/17"; "03/04/17"]; ["09:45"; "22:05"; "09:15"]]
       3.

End Sample.

(** ** Notions used in the statements *)

(** The message elements that the two loops of the extraction visit:
    those found in each thread, thread after thread. *)
Definition message_elements (soup : bs4.node) : list bs4.element :=
  flat_map (fun thread => bs4.find_all "message" (bs4.el thread))
           (bs4.find_all "thread" soup).

(** The four lists under construction all have length [n]. *)
Definition all_of_length (acc : list string * list string * list string * list string)
    (n : nat) : Prop :=
  let '(users, msgs, dates, times) := acc in
  length users = n /\ length msgs = n /\ length dates = n /\ length times = n.

(** The number of elements that a [Counter] has counted. *)
Definition sum_counts (c : list (string * nat)) : nat :=
  fold_right (fun item total => snd item + total) 0 c.

(** A text without any token: empty, or whitespace only. *)
Definition only_whitespace (s : string) : bool :=
  forallb Py.isspace (list_ascii_of_string s).

(** The number printed with [{:.2f}] on a line, and the sum of these
    numbers over some lines. *)
Definition printed_float (l : line) : Q :=
  match last (args l) with
  | Some (AFloat q) => q
  | _ => 0%Q
  end.

Definition Qsum (l : list Q) : Q := fold_right Qplus 0%Q l.

(** The line that [calculate_total_messages_per_user] prints for a user
    with [n] messages out of [total]. *)
Definition user_line (total : nat) (item : string * nat) : line :=
  Line "[INFO]: Messages sent by {}: {} ({:.2f}%)"
       [AStr (fst item); AInt (Z.of_nat (snd item));
        AFloat (Qred (Qred (inject_Z (Z.of_nat (snd item)) / inject_Z (Z.of_nat total)) * 100)%Q)].

(** ** The script

    The last lines of the file: the object is built from the cache, the
    four lists are taken out of it and the chart is drawn. *)
Definition main (P : platform) : M unit :=
  fb <- init P "171.html" false ;;
  let fb_data := data fb in
  users <- lift (getitem fb_data 0) ;;
  msgs <- lift (getitem fb_data 1) ;;
  dates <- lift (getitem fb_data 2) ;;
  times <- lift (getitem fb_data 3) ;;
  plot_total_msgs_per_hour fb times "Messages/Hour" "Hour" "# Messages".

(** ** Further notions used in the statements *)

(** What the loop body yields for one message element on its own. *)
Definition record_of (P : platform) (self : FacebookConversationAnalysis)
    (chat : bs4.element)
    : result (list string * list string * list string * list string) :=
  extract_chat P self ([], [], [], []) chat.

(** A computation whose only effect on the world, whatever its outcome,
    is to print lines. *)
Definition only_prints {A} (m : M A) : Prop :=
  forall w, exists lines, snd (m w) = say lines w.

(** How often [k] occurs in [l], and the count that a [Counter] holds
    for [k] (0 when it has none). *)
Fixpoint occurrences (k : string) (l : list string) : nat :=
  match l with
  | [] => 0
  | x :: l' => (if String.eqb k x then 1 else 0) + occurrences k l'
  end.

Fixpoint count_of (k : string) (c : list (string * nat)) : nat :=
  match c with
  | [] => 0
  | (k', n) :: c' => if String.eqb k k' then n else count_of k c'
  end.

(** [l] without the occurrences of [x]. *)
Definition without (x : string) (l : list string) : list string :=
  List.filter (fun y => negb (String.eqb x y)) l.

(** How many of the times begin with the two characters [h]. *)
Fixpoint count_hour (h : string) (times : list string) : nat :=
  match times with
  | [] => 0
  | t :: times' => (if String.eqb (Py.take_str 2 t) h then 1 else 0) + count_hour h times'
  end.

(** The year between 1969 and 2068 with the same last two digits. *)
Definition window_year (y : Z) : Z := (1969 + (y - 1969) mod 100)%Z.

(** Whether the day [d] of month [m] of year [y], written with the date
    format, is read back as that day. *)
Definition reads_back (P : platform) (y m d : Z) : bool :=
  match datetime.strptime P (datetime.strftime (datetime.mk y m d 0 0) "%d/%m/%y") "%d/%m/%y" with
  | Ok r =>
      ((datetime.year r =? y) && (datetime.month r =? m) && (datetime.day r =? d)
       && (datetime.hour r =? 0) && (datetime.minute r =? 0))%Z
  | Raise _ => false
  end.

(** The integers [lo], [lo + 1], ..., [lo + n - 1]. *)
Definition Zrange (lo : Z) (n : nat) : list Z := map (fun i => (lo + Z.of_nat i)%Z) (seq 0 n).

(** The entries of a counter: one per key, none with a count of zero. *)
Definition counter_ok (c : list (string * nat)) : Prop :=
  NoDup (map fst c) /\ Forall (fun item => 0 < snd item) c.

(** More sample inputs. *)
Module Sample2.

Import bs4.

(** A thread whose second message carries an offset that the clean-up
    does not remove, and whose third has no date at all. *)
Definition bad_soup : node :=
  Tag "[document]" []
    [Tag "div" ["thread"]
       [Sample.message "Alice" "Tuesday, 4 April 2017 at 09:45 UTC+01";
        Sample.message "Bob" "Tuesday, 4 April 2017 at 09:50 UTC+02";
        Sample.message "Carol" "no date"]].

(** A cache that holds the lists of the sample document. *)
Definition full_cache : world :=
  World {[ "pickles/senders.pickle" := Framing.dumps ["Alice"; "Bob"; "Alice"];
           "pickles/messages.pickle" := Framing.dumps ["see you  then"; "ok"; "None"];
           "pickles/dates.pickle" := Framing.dumps ["04/04/17"; "03/04/17"; "03/04/17"];
           "pickles/times.pickle" := Framing.dumps ["09:45"; "22:05"; "09:15"] ]} ∅ [] [].

(** The sample world when the second cache file cannot be written. *)
Definition locked_world : world :=
  World {[ "171.html" := Sample.html ]} {[ "pickles/messages.pickle" ]} [] [].

End Sample2.

(** * Properties *)

(** ** Running the effectful primitives *)

Lemma say_say a b w : say b (say a w) = say (a ++ b) w.
Proof. unfold say; simpl. by rewrite <- app_assoc. Qed.

Lemma say_nil w : say [] w = w.
Proof. destruct w. unfold say; simpl. by rewrite app_nil_r. Qed.

Section Runs.

Context (P : platform).

Lemma save_pickle_run data name w :
  save_pickle P data name w =
  if decide (name ∈ unwritable w) then (Raise PermissionError, w)
  else (Ok tt, say [Line "[INFO]: {} saved" [AStr name]] (put name (pickle_dumps P data) w)).
Proof.
  unfold save_pickle, bind, write_file, print.
  destruct (decide (name ∈ unwritable w)); reflexivity.
Qed.

Lemma load_pickle_run name w :
  load_pickle P name w =
  match files w !! name with
  | Some b => (pickle_loads P b, say [Line "[INFO]: {} loaded" [AStr name]] w)
  | None => (Raise FileNotFoundError, w)
  end.
Proof.
  unfold load_pickle, bind, read_file, print, lift.
  destruct (files w !! name); reflexivity.
Qed.

Lemma extract_run self html_file w :
  extract_data_from_html_file P self html_file w =
  let w1 := say [Line "[INFO]: Extracting data from {}" [AStr html_file]] w in
  match files w !! html_file with
  | None => (Raise FileNotFoundError, w1)
  | Some b =>
      match BeautifulSoup P b with
      | Raise e => (Raise e, w1)
      | Ok soup =>
          match extract_soup P self soup with
          | Raise e => (Raise e, w1)
          | Ok data => (Ok data, say [Line "[INFO]: Data extracted from {}" [AStr html_file]] w1)
          end
      end
  end.
Proof.
  unfold extract_data_from_html_file, bind, read_file, print, lift, ret. simpl.
  destruct (files w !! html_file) as [b|]; [|reflexivity].
  destruct (BeautifulSoup P b) as [soup|]; [|reflexivity].
  destruct (extract_soup P self soup); reflexivity.
Qed.

(** ** Extraction: the four lists grow together *)

Lemma extract_chat_length self acc chat acc' n :
  extract_chat P self acc chat = Ok acc' ->
  all_of_length acc n -> all_of_length acc' (S n).
Proof.
  destruct acc as [[[users msgs] dates] times]. unfold extract_chat.
  destruct (not_none (bs4.find "user" _)); simpl; [|discriminate].
  destruct (not_none (bs4.next_sibling chat)); simpl; [|discriminate].
  destruct (not_none (bs4.find "meta" _)); simpl; [|discriminate].
  destruct (not_none (bs4.string_of _)); simpl; [|discriminate].
  destruct (datetime.strptime _ _ _); simpl; [|discriminate].
  intros [= <-] (Hu & Hm & Hd & Ht). unfold all_of_length.
  rewrite !length_app; simpl. lia.
Qed.

Lemma thread_loop_length self chats : forall acc acc' n,
  for_each (extract_chat P self) chats acc = Ok acc' ->
  all_of_length acc n -> all_of_length acc' (n + length chats).
Proof.
  induction chats as [|chat chats IH]; simpl; intros acc acc' n.
  - intros [= <-]. by rewrite Nat.add_0_r.
  - destruct (extract_chat P self acc chat) as [acc1|] eqn:E; simpl; [|discriminate].
    intros Hrest Hacc. rewrite <- Nat.add_succ_comm.
    eapply IH; [exact Hrest|]. eapply extract_chat_length; eauto.
Qed.

Lemma document_loop_length self threads : forall acc acc' n,
  for_each
    (fun acc thread =>
       for_each (extract_chat P self) (bs4.find_all "message" (bs4.el thread)) acc)
    threads acc = Ok acc' ->
  all_of_length acc n ->
  all_of_length acc'
    (n + length (flat_map (fun thread => bs4.find_all "message" (bs4.el thread)) threads)).
Proof.
  induction threads as [|thread threads IH]; simpl; intros acc acc' n.
  - intros [= <-]. by rewrite Nat.add_0_r.
  - destruct (for_each (extract_chat P self) _ acc) as [acc1|] eqn:E; simpl; [|discriminate].
    intros Hrest Hacc. rewrite length_app, Nat.add_assoc.
    eapply IH; [exact Hrest|]. eapply thread_loop_length; eauto.
Qed.

Lemma extract_soup_lengths self soup data :
  extract_soup P self soup = Ok data ->
  exists users msgs dates times,
    data = [users; msgs; dates; times] /\
    all_of_length (users, msgs, dates, times) (length (message_elements soup)).
Proof.
  unfold extract_soup.
  destruct (for_each _ _ _) as [[[[users msgs] dates] times]|] eqn:E; simpl; [|discriminate].
  intros [= <-]. exists users, msgs, dates, times. split; [reflexivity|].
  apply (document_loop_length _ _ _ _ 0) in E; [exact E|].
  repeat split.
Qed.

End Runs.

(** C1. Whenever the extraction returns, it returns four lists of one
    length, the number of message elements found in the threads of the
    document. *)
Theorem extract_four_equal_lengths (P : platform) (self : FacebookConversationAnalysis)
    (html_file : string) (w w' : world) (data : list (list string)) :
  extract_data_from_html_file P self html_file w = (Ok data, w') ->
  exists b soup users msgs dates times,
    files w !! html_file = Some b /\ BeautifulSoup P b = Ok soup /\
    data = [users; msgs; dates; times] /\
    length users = length (message_elements soup) /\
    length msgs = length (message_elements soup) /\
    length dates = length (message_elements soup) /\
    length times = length (message_elements soup).
Proof.
  rewrite extract_run. cbv zeta.
  destruct (files w !! html_file) as [b|]; [|discriminate].
  destruct (BeautifulSoup P b) as [soup|] eqn:Hsoup; [|discriminate].
  destruct (extract_soup P self soup) as [d|] eqn:Hd; [|discriminate].
  intros [= <- _].
  destruct (extract_soup_lengths _ _ _ _ Hd) as (users & msgs & dates & times & -> & Hlen).
  exists b, soup, users, msgs, dates, times. unfold all_of_length in Hlen. tauto.
Qed.

Lemma extract_four_equal_lengths_sample :
  exists b soup users msgs dates times,
    files Sample.world !! "171.html" = Some b /\ BeautifulSoup Sample.platform b = Ok soup /\
    [["Alice"; "Bob"; "Alice"]; ["see you  then"; "ok"; "None"];
     ["04/04/17"; "03/04/17"; "03/04/17"]; ["09:45"; "22:05"; "09:15"]]
      = [users; msgs; dates; times] /\
    length users = length (message_elements soup) /\
    length msgs = length (message_elements soup) /\
    length dates = length (message_elements soup) /\
    length times = length (message_elements soup).
Proof.
  eapply (extract_four_equal_lengths Sample.platform Sample.self "171.html" Sample.world).
  vm_compute. reflexivity.
Defined.

(** C2. A list saved under a name is the list loaded from that name. *)
Theorem save_then_load (P : platform)
    (pickle_law : forall l, pickle_loads P (pickle_dumps P l) = Ok l)
    (name : string) (data : list string) (w w1 : world) :
  save_pickle P data name w = (Ok tt, w1) ->
  load_pickle P name w1
  = (Ok data, say [Line "[INFO]: {} loaded" [AStr name]] w1).
Proof.
  rewrite save_pickle_run. destruct (decide (name ∈ unwritable w)); [discriminate|].
  intros [= <-]. rewrite load_pickle_run. unfold put, say; simpl.
  rewrite lookup_insert_eq, pickle_law. reflexivity.
Qed.

(** ** The wire format of the sample platform *)

Lemma append_empty_r cur : (cur ++ "")%string = cur.
Proof.
  induction cur as [|a cur IH]; [reflexivity|].
  change (String a (cur ++ "") = String a cur). by rewrite IH.
Qed.

Lemma append_snoc cur a s : ((cur ++ String a "") ++ s)%string = (cur ++ String a s)%string.
Proof.
  induction cur as [|b cur IH]; [reflexivity|].
  change (String b ((cur ++ String a "") ++ s) = String b (cur ++ String a s)).
  by rewrite IH.
Qed.

Lemma loads_from_enc_str s : forall cur rest,
  Framing.loads_from cur (Framing.enc_str s ++ rest)
  = let? l := Framing.loads_from "" rest in Ok ((cur ++ s)%string :: l).
Proof.
  induction s as [|c s IH]; intros cur rest.
  - simpl. by rewrite append_empty_r.
  - cbn [Framing.enc_str]. unfold Framing.enc_char.
    destruct (Byte.eqb (byte_of_ascii c) x00) eqn:E0.
    + apply Byte.byte_dec_bl in E0.
      assert (c = ascii_of_byte x00) as -> by (rewrite <- E0; symmetry; apply ascii_of_byte_of_ascii).
      simpl. rewrite IH, append_snoc. reflexivity.
    + destruct (Byte.eqb (byte_of_ascii c) x01) eqn:E1.
      * apply Byte.byte_dec_bl in E1.
        assert (c = ascii_of_byte x01) as -> by (rewrite <- E1; symmetry; apply ascii_of_byte_of_ascii).
        simpl. rewrite IH, append_snoc. reflexivity.
      * simpl. rewrite E0, E1, IH, append_snoc, ascii_of_byte_of_ascii. reflexivity.
Qed.

Lemma framing_round_trip l : Framing.loads (Framing.dumps l) = Ok l.
Proof.
  unfold Framing.loads, Framing.dumps.
  induction l as [|s l IH]; [reflexivity|].
  simpl. rewrite loads_from_enc_str, IH. reflexivity.
Qed.

Lemma save_then_load_sample :
  load_pickle Sample.platform "pickles/senders.pickle"
    (say [Line "[INFO]: {} saved" [AStr "pickles/senders.pickle"]]
         (put "pickles/senders.pickle" (Framing.dumps ["Alice"; "Bob"]) Sample.world))
  = (Ok ["Alice"; "Bob"],
     say [Line "[INFO]: {} loaded" [AStr "pickles/senders.pickle"]]
       (say [Line "[INFO]: {} saved" [AStr "pickles/senders.pickle"]]
          (put "pickles/senders.pickle" (Framing.dumps ["Alice"; "Bob"]) Sample.world))).
Proof.
  apply (save_then_load Sample.platform framing_round_trip
           "pickles/senders.pickle" ["Alice"; "Bob"] Sample.world).
  reflexivity.
Defined.

(** ** Dates: what the constructor lets through, and the month arithmetic *)

Module DateFacts.

Import datetime dateutil.
Local Open Scope Z_scope.

Ltac bool_to_prop :=
  rewrite ?orb_true_iff, ?andb_true_iff, ?orb_false_iff, ?andb_false_iff,
          ?Z.ltb_lt, ?Z.eqb_eq, ?Z.ltb_ge, ?Z.eqb_neq in *.

Lemma make_inv y m d H M x :
  make y m d H M = Ok x -> x = mk y m d H M /\ valid x.
Proof.
  unfold make. destruct (_ && _) eqn:E; [|discriminate].
  intros [= <-]. split; [reflexivity|].
  repeat (apply andb_prop in E; destruct E as [E ?]).
  unfold valid; simpl. lia.
Qed.

Lemma make_ok y m d H M :
  valid (mk y m d H M) -> make y m d H M = Ok (mk y m d H M).
Proof.
  unfold valid, make; simpl. intros (? & ? & ? & ? & ?).
  replace (_ && _) with true; [reflexivity|].
  symmetry. repeat (apply andb_true_intro; split); lia.
Qed.

Lemma days_in_month_range y m : 28 <= days_in_month y m <= 31.
Proof. unfold days_in_month. repeat case_match; lia. Qed.

Lemma set_months_sum k :
  years (set_months k) * 12 + months (set_months k) = k /\
  -11 <= months (set_months k) <= 11.
Proof.
  unfold set_months, sign.
  destruct (11 <? Z.abs k) eqn:E; simpl; [|lia].
  destruct (k <? 0) eqn:S; Z.to_euclidean_division_equations; lia.
Qed.

(** Moving by [k] months lands in the month that is [k] months away. *)
Lemma add_target dt k :
  valid dt ->
  exists Y M,
    Y * 12 + M = year dt * 12 + month dt + k /\ 1 <= M <= 12 /\
    add (set_months k) dt
    = make Y M (Z.min (days_in_month Y M) (day dt)) (hour dt) (minute dt).
Proof.
  intros (Hy & Hm & Hd & HH & HM).
  destruct (set_months_sum k) as [Hs Hr].
  unfold add. destruct (set_months k) as [ys ms]; simpl in *.
  destruct (ms =? 0) eqn:E0.
  - exists (year dt + ys), (month dt). split; [lia|]. split; [lia|reflexivity].
  - destruct (12 <? month dt + ms) eqn:E1.
    + exists (year dt + ys + 1), (month dt + ms - 12).
      split; [lia|]. split; [lia|reflexivity].
    + destruct (month dt + ms <? 1) eqn:E2.
      * exists (year dt + ys - 1), (month dt + ms + 12).
        split; [lia|]. split; [lia|reflexivity].
      * exists (year dt + ys), (month dt + ms).
        split; [lia|]. split; [lia|reflexivity].
Qed.

Lemma add_moved dt k :
  valid dt -> 13 <= year dt * 12 + month dt + k <= 9999 * 12 + 12 ->
  exists dtm, add (set_months k) dt = Ok dtm /\ valid dtm /\
    year dtm * 12 + month dtm = year dt * 12 + month dt + k /\
    day dtm = Z.min (days_in_month (year dtm) (month dtm)) (day dt) /\
    hour dtm = hour dt /\ minute dtm = minute dt.
Proof.
  intros Hv Hk. destruct (add_target dt k Hv) as (Y & M & Hidx & HM & Hadd).
  pose proof (days_in_month_range Y M).
  destruct Hv as (Hy & Hm & Hd & HH & HMi).
  assert (Hw : valid (mk Y M (Z.min (days_in_month Y M) (day dt)) (hour dt) (minute dt))).
  { unfold valid; simpl. lia. }
  exists (mk Y M (Z.min (days_in_month Y M) (day dt)) (hour dt) (minute dt)).
  rewrite Hadd, (make_ok _ _ _ _ _ Hw). simpl. repeat split; try apply Hw; lia.
Qed.

(** The loop of [relativedelta] goes round at most once, and no step
    leaves the range of years: the constructor returns. *)
Lemma relativedelta_returns dt1 dt2 :
  valid dt1 -> valid dt2 -> exists r, relativedelta dt1 dt2 = Ok r.
Proof.
  intros H1 H2. unfold relativedelta.
  set (T := (year dt1 - year dt2) * 12 + (month dt1 - month dt2)).
  destruct (add_moved dt2 T H2) as (dtm & -> & Hw & Hi & Hday & Hh & Hmi).
  { destruct H1 as (? & ? & _), H2 as (? & ? & _). unfold T. lia. }
  simpl.
  assert (year dtm = year dt1 /\ month dtm = month dt1) as [Ey Em].
  { destruct H1 as (? & ? & _), Hw as (? & ? & _). unfold T in Hi. lia. }
  destruct (lt dt1 dt2) eqn:Hlt; unfold rounds; simpl.
  - destruct (gt dt1 dtm) eqn:Hc; simpl; [|eauto].
    assert (T <= -1) as HT.
    { destruct (Z_le_gt_dec T (-1)) as [|Hgt]; [assumption|exfalso].
      unfold gt, lt in *. bool_to_prop. rewrite Ey, Em in Hday.
      destruct H1 as (? & ? & ? & _), H2 as (? & ? & ? & _).
      assert (year dt1 = year dt2 /\ month dt1 = month dt2) as [Fy Fm]
        by (unfold T in Hgt; lia).
      rewrite Fy, Fm in Hday. lia. }
    destruct (add_moved dt2 (T + 1) H2) as (dtm' & E' & Hw' & Hi' & _).
    { destruct H1 as (? & ? & _), H2 as (? & ? & _). unfold T in *. lia. }
    rewrite E'. simpl.
    replace (gt dt1 dtm') with false; simpl; [eauto|].
    symmetry. unfold gt, lt. bool_to_prop.
    destruct H1 as (? & ? & _), Hw' as (? & ? & _). unfold T in Hi'. lia.
  - destruct (lt dt1 dtm) eqn:Hc; simpl; [|eauto].
    assert (1 <= T) as HT.
    { destruct (Z_le_gt_dec 1 T) as [|Hgt]; [assumption|exfalso].
      unfold gt, lt in *. bool_to_prop. rewrite Ey, Em in Hday.
      destruct H1 as (? & ? & ? & _), H2 as (? & ? & ? & _).
      assert (year dt1 = year dt2 /\ month dt1 = month dt2) as [Fy Fm]
        by (unfold T in Hgt; lia).
      rewrite Fy, Fm in Hday. lia. }
    destruct (add_moved dt2 (T + -1) H2) as (dtm' & E' & Hw' & Hi' & _).
    { destruct H1 as (? & ? & _), H2 as (? & ? & _). unfold T in *. lia. }
    rewrite E'. simpl.
    replace (lt dt1 dtm') with false; simpl; [eauto|].
    symmetry. unfold gt, lt. bool_to_prop.
    destruct H1 as (? & ? & _), Hw' as (? & ? & _). unfold T in Hi'. lia.
Qed.

Lemma strptime_valid P s fmt d : strptime P s fmt = Ok d -> valid d.
Proof.
  unfold strptime. destruct (compile P fmt) as [its|]; [|discriminate].
  destruct (match_items its [] s) as [[found rest]|]; [|discriminate].
  destruct (String.eqb rest ""); [|discriminate].
  intros H. apply make_inv in H. apply H.
Qed.

Lemma match_alts_inv {R} alts s (k : string -> string -> option R) x :
  match_alts alts s k = Some x -> exists m r, k m r = Some x.
Proof.
  induction alts as [|a alts IH]; simpl; [discriminate|].
  destruct (match_alt a s) as [[m r]|]; [|exact IH].
  destruct (k m r) eqn:E; [|exact IH].
  intros [= <-]. eauto.
Qed.

(** A date read with the program's date format has no time of day. *)
Lemma strptime_date_midnight P s d :
  strptime P s "%d/%m/%y" = Ok d -> hour d = 0 /\ minute d = 0.
Proof.
  unfold strptime.
  change (compile P "%d/%m/%y") with
    (Some [Group "d" (default [] (directive P "d")); Lit "/";
           Group "m" (default [] (directive P "m")); Lit "/";
           Group "y" (default [] (directive P "y"))]).
  cbv beta iota.
  destruct (match_items _ _ s) as [[found rest]|] eqn:E; [|discriminate].
  cbn [match_items] in E.
  apply match_alts_inv in E as (t1 & r1 & E).
  destruct r1 as [|c1 r1]; [discriminate|]. destruct (chr_ci "/" c1); [|discriminate].
  apply match_alts_inv in E as (t2 & r2 & E).
  destruct r2 as [|c2 r2]; [discriminate|]. destruct (chr_ci "/" c2); [|discriminate].
  apply match_alts_inv in E as (t3 & r3 & E).
  injection E as <- <-.
  destruct (String.eqb r3 ""); [|discriminate].
  intros H. apply make_inv in H as [-> _]. simpl. split; reflexivity.
Qed.

Lemma sub_days_same d : sub_days d d = 0.
Proof. unfold sub_days. by rewrite Z.sub_diag. Qed.

End DateFacts.

(** ** Average messages per unit of time *)

Section UnitTime.

Context (P : platform).

(** The statements before the test on [unit_time]: both ends of the list
    are read and parsed, and both differences are computed. *)
Lemma unit_time_prologue self dates unit_time w oldest newest first_date last_date :
  last dates = Some oldest -> dates !! 0 = Some newest ->
  datetime.strptime P oldest (date_format self) = Ok first_date ->
  datetime.strptime P newest (date_format self) = Ok last_date ->
  exists delta_du,
    dateutil.relativedelta last_date first_date = Ok delta_du /\
    calculate_average_messages_per_unit_time P self dates unit_time w =
    (if negb (existsb (String.eqb unit_time) ["day"; "week"; "month"; "year"]) then
       print (Line "[ERROR]: Please choose a correct value for unit_time" [])
     else
       avg <- lift (true_div (Z.of_nat (total_msgs self))
                      (interval_of unit_time (datetime.sub_days last_date first_date) delta_du)) ;;
       print (Line "[INFO]: Average Messages/{}: {:.2f}"
                   [AStr (Py.title unit_time); AFloat avg])) w.
Proof.
  intros Hlast Hhead Hfirst Hnewest.
  destruct (DateFacts.relativedelta_returns last_date first_date) as [delta_du Hdu].
  { eapply DateFacts.strptime_valid; eauto. }
  { eapply DateFacts.strptime_valid; eauto. }
  exists delta_du. split; [exact Hdu|].
  unfold calculate_average_messages_per_unit_time, getitem_last, getitem.
  rewrite Hlast, Hhead. unfold bind at 1. unfold lift at 1.
  unfold bind at 1. unfold lift at 1. rewrite Hfirst.
  unfold bind at 1. unfold lift at 1.
  unfold bind at 1. unfold lift at 1. rewrite Hnewest.
  unfold bind at 1. unfold lift at 1. rewrite Hdu.
  reflexivity.
Qed.

End UnitTime.

(** C3, as amended. An unsupported [unit_time] is answered with the
    validation line and nothing else, whenever the two ends of the date
    list parse: no interval is computed and nothing is divided, the call
    returns normally, and the world is left as it was but for that line. *)
Theorem invalid_unit_is_reported (P : platform) (self : FacebookConversationAnalysis)
    (dates : list string) (unit_time : string) (w : world)
    (oldest newest : string) (first_date last_date : datetime.t) :
  existsb (String.eqb unit_time) ["day"; "week"; "month"; "year"] = false ->
  last dates = Some oldest -> dates !! 0 = Some newest ->
  datetime.strptime P oldest (date_format self) = Ok first_date ->
  datetime.strptime P newest (date_format self) = Ok last_date ->
  calculate_average_messages_per_unit_time P self dates unit_time w
  = (Ok tt, say [Line "[ERROR]: Please choose a correct value for unit_time" []] w).
Proof.
  intros Hunit Hlast Hhead Hfirst Hnewest.
  destruct (unit_time_prologue P self dates unit_time w _ _ _ _ Hlast Hhead Hfirst Hnewest)
    as (delta_du & _ & ->).
  rewrite Hunit. reflexivity.
Qed.

Lemma invalid_unit_is_reported_sample :
  calculate_average_messages_per_unit_time Sample.platform Sample.self
    ["04/04/17"; "03/04/17"; "03/04/17"] "century" Sample.world
  = (Ok tt, say [Line "[ERROR]: Please choose a correct value for unit_time" []] Sample.world).
Proof.
  apply (invalid_unit_is_reported Sample.platform Sample.self
           ["04/04/17"; "03/04/17"; "03/04/17"] "century" Sample.world
           "03/04/17" "04/04/17"
           (datetime.mk 2017 4 3 0 0) (datetime.mk 2017 4 4 0 0));
    reflexivity.
Defined.

(** C3, as stated, fails: with an empty date list the call raises
    [IndexError] before it looks at [unit_time], and prints nothing. *)
Lemma invalid_unit_empty_dates_raises :
  existsb (String.eqb "century") ["day"; "week"; "month"; "year"] = false /\
  calculate_average_messages_per_unit_time Sample.platform Sample.self [] "century" Sample.world
  = (Raise IndexError, Sample.world) /\
  calculate_average_messages_per_unit_time Sample.platform Sample.self [] "century" Sample.world
  <> (Ok tt, say [Line "[ERROR]: Please choose a correct value for unit_time" []] Sample.world).
Proof.
  split; [reflexivity|].
  assert (E : calculate_average_messages_per_unit_time Sample.platform Sample.self []
                "century" Sample.world = (Raise IndexError, Sample.world)) by reflexivity.
  split; [exact E|]. rewrite E. discriminate.
Qed.

(** C4. When the newest and the oldest date are the same day, the
    average per day divides by an interval of zero: the call raises
    [ZeroDivisionError]. *)
Theorem same_day_divides_by_zero (P : platform) (self : FacebookConversationAnalysis)
    (dates : list string) (w : world)
    (oldest newest : string) (first_date last_date : datetime.t) :
  date_format self = "%d/%m/%y" ->
  last dates = Some oldest -> dates !! 0 = Some newest ->
  datetime.strptime P oldest "%d/%m/%y" = Ok first_date ->
  datetime.strptime P newest "%d/%m/%y" = Ok last_date ->
  datetime.year first_date = datetime.year last_date ->
  datetime.month first_date = datetime.month last_date ->
  datetime.day first_date = datetime.day last_date ->
  calculate_average_messages_per_unit_time P self dates "day" w
  = (Raise ZeroDivisionError, w).
Proof.
  intros Hfmt Hlast Hhead Hfirst Hnewest Hy Hm Hd.
  assert (first_date = last_date) as ->.
  { destruct (DateFacts.strptime_date_midnight _ _ _ Hfirst) as [H1 M1].
    destruct (DateFacts.strptime_date_midnight _ _ _ Hnewest) as [H2 M2].
    destruct first_date, last_date; simpl in *. congruence. }
  rewrite <- Hfmt in Hfirst, Hnewest.
  destruct (unit_time_prologue P self dates "day" w _ _ _ _ Hlast Hhead Hfirst Hnewest)
    as (delta_du & _ & ->).
  cbn [existsb String.eqb Ascii.eqb Bool.eqb negb orb].
  unfold interval_of. cbn [String.eqb Ascii.eqb Bool.eqb].
  rewrite DateFacts.sub_days_same. reflexivity.
Qed.

Lemma same_day_divides_by_zero_sample :
  calculate_average_messages_per_unit_time Sample.platform Sample.self
    ["03/04/17"; "03/04/17"] "day" Sample.world
  = (Raise ZeroDivisionError, Sample.world).
Proof.
  apply (same_day_divides_by_zero Sample.platform Sample.self
           ["03/04/17"; "03/04/17"] Sample.world "03/04/17" "03/04/17"
           (datetime.mk 2017 4 3 0 0) (datetime.mk 2017 4 3 0 0));
    reflexivity.
Defined.

(** C6. From 10/01/23 to 20/01/23 there are ten days; two messages give
    an average of 2/10 = 0.20 per day. *)
Theorem ten_days_two_messages (P : platform) (data : list (list string)) (w : world) :
  let self := Self "%A, %d %B %Y at %H:%M %Z" "%d/%m/%y" "%H:%M" data 2 in
  exists first_date last_date delta_du,
    datetime.strptime P "10/01/23" (date_format self) = Ok first_date /\
    datetime.strptime P "20/01/23" (date_format self) = Ok last_date /\
    dateutil.relativedelta last_date first_date = Ok delta_du /\
    interval_of "day" (datetime.sub_days last_date first_date) delta_du = 10%Z /\
    true_div (Z.of_nat (total_msgs self)) 10 = Ok (1 # 5) /\
    (1 # 5 == 0.20)%Q /\
    calculate_average_messages_per_unit_time P self ["20/01/23"; "10/01/23"] "day" w
    = (Ok tt, say [Line "[INFO]: Average Messages/{}: {:.2f}" [AStr "Day"; AFloat (1 # 5)]] w).
Proof.
  intros self.
  exists (datetime.mk 2023 1 10 0 0), (datetime.mk 2023 1 20 0 0), (dateutil.Delta 0 0).
  repeat split; vm_compute; reflexivity.
Qed.

(** C8. The times 09:15, 09:45 and 10:05 fall into the bucket "09" with
    two messages and the bucket "10" with one, in this order. *)
Theorem three_times_two_buckets :
  group_by_hour ["09:15"; "09:45"; "10:05"] = ([2; 1], ["09"; "10"]) /\
  Py.groupby (Py.take_str 2) (Py.sorted String.leb ["09:15"; "09:45"; "10:05"])
  = [("09", ["09:15"; "09:45"]); ("10", ["10:05"])].
Proof. split; reflexivity. Qed.

(** ** Words per message *)

Lemma split_from_nil s : forall cur,
  Py.split_from cur s = [] <-> cur = "" /\ only_whitespace s = true.
Proof.
  unfold only_whitespace.
  induction s as [|c s IH]; intros cur; simpl.
  - destruct (String.eqb_spec cur "") as [->|Hne]; [tauto|].
    split; [discriminate|]. intros [? _]. contradiction.
  - destruct (Py.isspace c); simpl.
    + destruct (String.eqb_spec cur "") as [->|Hne].
      * apply IH.
      * split; [discriminate|]. intros [? _]. contradiction.
    + rewrite IH. split; [|intros [_ ?]; discriminate].
      intros [H _]. destruct cur; discriminate.
Qed.

Lemma count_words_from_zero msgs : forall n,
  fold_left (fun total_words msg => total_words + length (Py.split msg)) msgs n = 0
  <-> n = 0 /\ Forall (fun m => only_whitespace m = true) msgs.
Proof.
  induction msgs as [|m msgs IH]; intros n; simpl.
  - split; [intros ->; split; [reflexivity|constructor]|tauto].
  - rewrite IH, Forall_cons. unfold Py.split.
    pose proof (split_from_nil m "") as Hm.
    destruct (Py.split_from "" m) eqn:E; simpl.
    + rewrite Nat.add_0_r. tauto.
    + split; [lia|]. intros (_ & Hblank & _).
      assert ("" = "" /\ only_whitespace m = true) as Hm' by tauto.
      apply Hm in Hm'. discriminate.
Qed.

Lemma count_words_zero msgs :
  count_words msgs = 0 <-> Forall (fun m => only_whitespace m = true) msgs.
Proof. unfold count_words. rewrite count_words_from_zero. tauto. Qed.

(** The quotient of a natural number by a positive one. *)
Lemma true_div_nat a b :
  0 < b ->
  exists q, true_div (Z.of_nat a) (Z.of_nat b) = Ok q /\
    (q == inject_Z (Z.of_nat a) / inject_Z (Z.of_nat b))%Q /\
    (0 <= q)%Q /\ ((q == 0)%Q <-> a = 0).
Proof.
  intros Hb. unfold true_div.
  destruct (Z.eqb_spec (Z.of_nat b) 0) as [|_]; [lia|].
  eexists. split; [reflexivity|].
  assert (Hq : (Qred (inject_Z (Z.of_nat a) / inject_Z (Z.of_nat b))
                == inject_Z (Z.of_nat a) / inject_Z (Z.of_nat b))%Q) by apply Qred_correct.
  split; [exact Hq|]. rewrite Hq.
  destruct (Z.of_nat b) as [|p|p] eqn:Eb; try lia.
  unfold Qdiv, Qinv, Qmult, Qle, Qeq, inject_Z; simpl. lia.
Qed.

(** C5, as amended. With a positive message count the average number of
    words per message is never negative, and it is zero exactly when
    every message is empty or made of whitespace only. *)
Theorem average_words_zero_iff_no_word (self : FacebookConversationAnalysis)
    (msgs : list string) (w : world) :
  0 < total_msgs self ->
  exists q,
    calculate_average_words_per_message self msgs w
    = (Ok tt, say [Line "[INFO]: Average Words/Message: {:.2f}" [AFloat q]] w) /\
    (q == inject_Z (Z.of_nat (count_words msgs)) / inject_Z (Z.of_nat (total_msgs self)))%Q /\
    (0 <= q)%Q /\
    ((q == 0)%Q <-> Forall (fun m => only_whitespace m = true) msgs).
Proof.
  intros Hpos.
  destruct (true_div_nat (count_words msgs) (total_msgs self) Hpos) as (q & Hdiv & Hq & H0 & Hz).
  exists q. unfold calculate_average_words_per_message, bind, lift. rewrite Hdiv.
  split; [reflexivity|]. split; [exact Hq|]. split; [exact H0|].
  rewrite Hz. apply count_words_zero.
Qed.

Lemma average_words_zero_iff_no_word_sample :
  exists q,
    calculate_average_words_per_message Sample.self ["see you  then"; "ok"; "None"] Sample.world
    = (Ok tt, say [Line "[INFO]: Average Words/Message: {:.2f}" [AFloat q]] Sample.world) /\
    (q == inject_Z (Z.of_nat (count_words ["see you  then"; "ok"; "None"]))
          / inject_Z (Z.of_nat (total_msgs Sample.self)))%Q /\
    (0 <= q)%Q /\
    ((q == 0)%Q <->
     Forall (fun m => only_whitespace m = true) ["see you  then"; "ok"; "None"]).
Proof.
  apply (average_words_zero_iff_no_word Sample.self ["see you  then"; "ok"; "None"] Sample.world).
  simpl. lia.
Defined.

(** C5, as stated, fails: a message of one space is not empty, and the
    average over it is zero. *)
Lemma blank_message_average_zero :
  let self := Self "%A, %d %B %Y at %H:%M %Z" "%d/%m/%y" "%H:%M"
                   [["Alice"]; [" "]; ["03/04/17"]; ["09:15"]] 1 in
  0 < total_msgs self /\
  calculate_average_words_per_message self [" "] Sample.world
  = (Ok tt, say [Line "[INFO]: Average Words/Message: {:.2f}" [AFloat 0]] Sample.world) /\
  ~ Forall (fun m => m = "") [" "].
Proof.
  split; [simpl; lia|]. split; [reflexivity|].
  intros H. apply Forall_inv in H. discriminate.
Qed.

(** ** Messages per user *)

Lemma sum_counts_insert x l :
  sum_counts (Py.insert_sorted Py.item_leb x l) = snd x + sum_counts l.
Proof.
  induction l as [|y l IH]; simpl; [reflexivity|].
  destruct (Py.item_leb x y); simpl; [reflexivity|]. rewrite IH. lia.
Qed.

Lemma sum_counts_sorted l : sum_counts (Py.sorted Py.item_leb l) = sum_counts l.
Proof.
  induction l as [|x l IH]; simpl; [reflexivity|].
  unfold Py.sorted in *. rewrite sum_counts_insert, IH. reflexivity.
Qed.

Lemma sum_counts_incr k c : sum_counts (Py.counter_incr k c) = S (sum_counts c).
Proof.
  induction c as [|[k' n] c IH]; simpl; [reflexivity|].
  destruct (String.eqb k k'); simpl; [reflexivity|]. rewrite IH. lia.
Qed.

Lemma sum_counts_Counter users : sum_counts (Py.Counter users) = length users.
Proof.
  unfold Py.Counter.
  assert (H : forall c, sum_counts (fold_left (fun c k => Py.counter_incr k c) users c)
                        = sum_counts c + length users).
  { induction users as [|u users IH]; intros c; simpl; [lia|].
    rewrite IH, sum_counts_incr. lia. }
  apply H.
Qed.

(** The loop over the indices prints one line per item, in order. *)
Lemma user_loop_run (total : nat) (l : list (string * nat)) :
  0 < total ->
  forall (done_ : list (string * nat)) (w : world),
  for_ (seq (length done_) (length l))
    (fun i =>
       user <- lift (getitem (map fst (done_ ++ l)) i) ;;
       n <- lift (getitem (map snd (done_ ++ l)) i) ;;
       q <- lift (true_div (Z.of_nat n) (Z.of_nat (total))) ;;
       print (Line "[INFO]: Messages sent by {}: {} ({:.2f}%)"
                   [AStr user; AInt (Z.of_nat n); AFloat (Qred (q * 100))])) w
  = (Ok tt, say (map (user_line (total)) l) w).
Proof.
  intros Hpos. induction l as [|[u n] l IH]; intros done_ w.
  - simpl. unfold ret. by rewrite say_nil.
  - cbn [length seq for_]. unfold bind at 1.
    unfold bind at 1. unfold lift at 1. unfold getitem at 1.
    rewrite list_lookup_fmap, lookup_app_r, Nat.sub_diag by lia. cbn [lookup list_lookup fmap option_fmap option_map fst].
    unfold bind at 1. unfold lift at 1. unfold getitem at 1.
    rewrite list_lookup_fmap, lookup_app_r, Nat.sub_diag by lia. cbn [lookup list_lookup fmap option_fmap option_map snd].
    unfold bind at 1. unfold lift at 1. unfold true_div at 1.
    destruct (Z.eqb_spec (Z.of_nat (total)) 0) as [|_]; [lia|].
    unfold print at 1.
    specialize (IH (done_ ++ [(u, n)])).
    rewrite length_app, Nat.add_1_r, <- app_assoc in IH. cbn [app] in IH.
    rewrite IH, say_say. reflexivity.
Qed.

Lemma percentages_sum (total : nat) (items : list (string * nat)) :
  0 < total ->
  (Qsum (map printed_float (map (user_line total) items))
   == inject_Z (Z.of_nat (sum_counts items)) / inject_Z (Z.of_nat total) * 100)%Q.
Proof.
  intros Hpos.
  assert (Hnz : ~ (inject_Z (Z.of_nat total) == 0)%Q).
  { unfold Qeq, inject_Z; simpl. lia. }
  induction items as [|[u n] items IH].
  - simpl. unfold Qdiv. ring.
  - change (sum_counts ((u, n) :: items)) with (n + sum_counts items).
    cbn [map Qsum fold_right]. fold (Qsum (map printed_float (map (user_line total) items))).
    rewrite IH. unfold printed_float, user_line; cbn [args last snd].
    rewrite !Qred_correct, Nat2Z.inj_add, inject_Z_plus. field. exact Hnz.
Qed.

(** ** The constructor *)

Section Constructor.

Context (P : platform).

Lemma init_reextract_run html_file w b soup users msgs dates times :
  files w !! html_file = Some b -> BeautifulSoup P b = Ok soup ->
  extract_soup P (Self "%A, %d %B %Y at %H:%M %Z" "%d/%m/%y" "%H:%M" [] 0) soup
    = Ok [users; msgs; dates; times] ->
  init P html_file true w =
  (let w2 := say [Line "[INFO]: Extracting data from {}" [AStr html_file];
                  Line "[INFO]: Data extracted from {}" [AStr html_file];
                  Line "[INFO]: Extracting data from {}" [AStr html_file];
                  Line "[INFO]: Data extracted from {}" [AStr html_file]] w in
   match
     (save_pickle P users "pickles/senders.pickle" ;;
      save_pickle P msgs "pickles/messages.pickle" ;;
      save_pickle P dates "pickles/dates.pickle" ;;
      save_pickle P times "pickles/times.pickle") w2
   with
   | (Ok _, w') =>
       (Ok (Self "%A, %d %B %Y at %H:%M %Z" "%d/%m/%y" "%H:%M"
                 [users; msgs; dates; times] (length users)), w')
   | (Raise e, w') => (Raise e, w')
   end).
Proof.
  intros Hb Hsoup Hdata. unfold init. cbv zeta.
  unfold bind at 1. unfold bind at 1. rewrite extract_run. cbv zeta.
  rewrite Hb, Hsoup, Hdata.
  unfold bind at 1. rewrite extract_run. cbv zeta.
  change (files (say _ (say _ w))) with (files w).
  rewrite Hb, Hsoup, Hdata. rewrite !say_say. cbn [app].
  unfold pickle_file_names. cbn [imap for_ compose].
  unfold bind, lift, getitem, ret. cbn [lookup list_lookup].
  repeat (destruct (save_pickle P _ _ _) as [[[]|] ?]; try reflexivity).
Qed.

End Constructor.

(** C9. With the re-extract flag the constructor extracts the document
    twice (the console shows both runs) and keeps the second result only;
    the dataset of the object is the extraction result for the document,
    and each cache file holds the pickled list of the same position, so
    that loading it gives that list back. *)
Theorem reextract_runs_twice_then_caches (P : platform) (html_file : string)
    (w w' : world) (self : FacebookConversationAnalysis) :
  init P html_file true w = (Ok self, w') ->
  exists b soup,
    files w !! html_file = Some b /\ BeautifulSoup P b = Ok soup /\
    extract_soup P self soup = Ok (data self) /\
    (forall n name, pickle_file_names !! n = Some name ->
       exists d, data self !! n = Some d /\
         files w' !! name = Some (pickle_dumps P d) /\
         ((forall l, pickle_loads P (pickle_dumps P l) = Ok l) ->
          fst (load_pickle P name w') = Ok d)) /\
    stdout w' = stdout w ++
      [Line "[INFO]: Extracting data from {}" [AStr html_file];
       Line "[INFO]: Data extracted from {}" [AStr html_file];
       Line "[INFO]: Extracting data from {}" [AStr html_file];
       Line "[INFO]: Data extracted from {}" [AStr html_file];
       Line "[INFO]: {} saved" [AStr "pickles/senders.pickle"];
       Line "[INFO]: {} saved" [AStr "pickles/messages.pickle"];
       Line "[INFO]: {} saved" [AStr "pickles/dates.pickle"];
       Line "[INFO]: {} saved" [AStr "pickles/times.pickle"]].
Proof.
  intros H.
  set (self0 := Self "%A, %d %B %Y at %H:%M %Z" "%d/%m/%y" "%H:%M" [] 0).
  assert (Hfirst : exists b soup d,
            files w !! html_file = Some b /\ BeautifulSoup P b = Ok soup /\
            extract_soup P self0 soup = Ok d).
  { unfold init in H. cbv zeta in H. unfold bind at 1 2 in H.
    rewrite extract_run in H. cbv zeta in H.
    destruct (files w !! html_file) as [b|]; [|discriminate].
    destruct (BeautifulSoup P b) as [soup|] eqn:Es; [|discriminate].
    destruct (extract_soup P _ soup) as [d|] eqn:Ed; [|discriminate].
    exists b, soup, d. auto. }
  destruct Hfirst as (b & soup & d & Hb & Hsoup & Hd).
  destruct (extract_soup_lengths _ _ _ _ Hd) as (users & msgs & dates & times & -> & _).
  rewrite (init_reextract_run P html_file w b soup users msgs dates times Hb Hsoup Hd) in H.
  cbv zeta in H. unfold bind in H.
  do 4 (rewrite save_pickle_run in H;
        match type of H with
        | context [decide (?x ∈ ?s)] =>
            let Hw := fresh "Hwritable" in
            destruct (decide (x ∈ s)) as [|Hw]; [discriminate|]
        end;
        cbv beta iota in H).
  injection H as <- <-.
  exists b, soup. split; [exact Hb|]. split; [exact Hsoup|]. split; [exact Hd|].
  split.
  - intros n name Hname.
    assert (Hcases : (n = 0 /\ name = "pickles/senders.pickle") \/
                     (n = 1 /\ name = "pickles/messages.pickle") \/
                     (n = 2 /\ name = "pickles/dates.pickle") \/
                     (n = 3 /\ name = "pickles/times.pickle")).
    { do 4 (destruct n as [|n]; [injection Hname as <-; tauto|]). discriminate. }
    destruct Hcases as [[-> ->]|[[-> ->]|[[-> ->]|[-> ->]]]];
      eexists; (split; [reflexivity|]);
      (split;
       [cbn [files say put]; rewrite ?lookup_insert_ne by discriminate;
        rewrite lookup_insert_eq; reflexivity
       |intros Hlaw; rewrite load_pickle_run; cbn [files say put];
        rewrite ?lookup_insert_ne by discriminate;
        rewrite lookup_insert_eq; simpl; apply Hlaw]).
  - cbn [stdout say put]. rewrite <- !app_assoc. reflexivity.
Qed.

Lemma reextract_runs_twice_then_caches_sample :
  exists w' b soup,
    files Sample.world !! "171.html" = Some b /\ BeautifulSoup Sample.platform b = Ok soup /\
    extract_soup Sample.platform Sample.self soup = Ok (data Sample.self) /\
    (forall n name, pickle_file_names !! n = Some name ->
       exists d, data Sample.self !! n = Some d /\
         files w' !! name = Some (pickle_dumps Sample.platform d) /\
         ((forall l, pickle_loads Sample.platform (pickle_dumps Sample.platform l) = Ok l) ->
          fst (load_pickle Sample.platform name w') = Ok d)) /\
    stdout w' = stdout Sample.world ++
      [Line "[INFO]: Extracting data from {}" [AStr "171.html"];
       Line "[INFO]: Data extracted from {}" [AStr "171.html"];
       Line "[INFO]: Extracting data from {}" [AStr "171.html"];
       Line "[INFO]: Data extracted from {}" [AStr "171.html"];
       Line "[INFO]: {} saved" [AStr "pickles/senders.pickle"];
       Line "[INFO]: {} saved" [AStr "pickles/messages.pickle"];
       Line "[INFO]: {} saved" [AStr "pickles/dates.pickle"];
       Line "[INFO]: {} saved" [AStr "pickles/times.pickle"]].
Proof.
  eexists.
  apply (reextract_runs_twice_then_caches Sample.platform "171.html" Sample.world _ Sample.self).
  vm_compute. reflexivity.
Defined.

Section CacheMode.

Context (P : platform).

Lemma init_cache_run html_file w b0 b1 b2 b3 senders msgs dates times :
  files w !! "pickles/senders.pickle" = Some b0 -> pickle_loads P b0 = Ok senders ->
  files w !! "pickles/messages.pickle" = Some b1 -> pickle_loads P b1 = Ok msgs ->
  files w !! "pickles/dates.pickle" = Some b2 -> pickle_loads P b2 = Ok dates ->
  files w !! "pickles/times.pickle" = Some b3 -> pickle_loads P b3 = Ok times ->
  init P html_file false w =
  (Ok (Self "%A, %d %B %Y at %H:%M %Z" "%d/%m/%y" "%H:%M"
            [senders; msgs; dates; times] (length senders)),
   say [Line "[INFO]: {} loaded" [AStr "pickles/senders.pickle"];
        Line "[INFO]: {} loaded" [AStr "pickles/messages.pickle"];
        Line "[INFO]: {} loaded" [AStr "pickles/dates.pickle"];
        Line "[INFO]: {} loaded" [AStr "pickles/times.pickle"]] w).
Proof.
  intros H0 L0 H1 L1 H2 L2 H3 L3.
  unfold init, pickle_file_names. cbv zeta. cbn [fold_left].
  unfold bind, ret, lift, getitem. cbv beta iota.
  rewrite load_pickle_run, H0, L0. cbv beta iota.
  rewrite load_pickle_run. cbn [files say]. rewrite H1, L1. cbv beta iota.
  rewrite load_pickle_run. cbn [files say]. rewrite H2, L2. cbv beta iota.
  rewrite load_pickle_run. cbn [files say]. rewrite H3, L3. cbv beta iota.
  rewrite !say_say. reflexivity.
Qed.

(** With no message counted, the first line of the per-user report
    already divides by zero. *)
Lemma user_loop_zero (self : FacebookConversationAnalysis) (users : list string) w :
  total_msgs self = 0 -> users <> [] ->
  calculate_total_messages_per_user self users w = (Raise ZeroDivisionError, w).
Proof.
  intros Hz Hne. unfold calculate_total_messages_per_user.
  pose proof (sum_counts_sorted (Py.Counter users)) as Hsum.
  rewrite sum_counts_Counter in Hsum.
  destruct (Py.sorted Py.item_leb (Py.Counter users)) as [|[u n] items] eqn:E.
  { destruct users; [contradiction|]. simpl in Hsum. lia. }
  cbn [map length seq for_ fst snd].
  unfold bind, lift, getitem. cbn [lookup list_lookup].
  unfold true_div. rewrite Hz. reflexivity.
Qed.

End CacheMode.

(** C10, as amended. The message count of the object is the length of
    the senders list alone. In cache mode the four lists are loaded as
    they are, whatever their lengths; the per-user percentages and the
    average words per message then divide by the length of the senders
    list, and the average messages per unit of time divides that length
    by the interval. *)
Theorem cache_mode_total_is_senders_length (P : platform) (html_file : string) (w : world)
    (b0 b1 b2 b3 : list byte) (senders msgs dates times : list string) :
  files w !! "pickles/senders.pickle" = Some b0 -> pickle_loads P b0 = Ok senders ->
  files w !! "pickles/messages.pickle" = Some b1 -> pickle_loads P b1 = Ok msgs ->
  files w !! "pickles/dates.pickle" = Some b2 -> pickle_loads P b2 = Ok dates ->
  files w !! "pickles/times.pickle" = Some b3 -> pickle_loads P b3 = Ok times ->
  exists self w',
    init P html_file false w = (Ok self, w') /\
    data self = [senders; msgs; dates; times] /\
    total_msgs self = length senders /\
    (forall users w0, users <> [] ->
       calculate_total_messages_per_user self users w0 =
       if decide (length senders = 0) then (Raise ZeroDivisionError, w0)
       else (Ok tt, say (map (user_line (length senders))
                             (Py.sorted Py.item_leb (Py.Counter users))) w0)) /\
    (forall texts w0,
       calculate_average_words_per_message self texts w0 =
       match true_div (Z.of_nat (count_words texts)) (Z.of_nat (length senders)) with
       | Ok q => (Ok tt, say [Line "[INFO]: Average Words/Message: {:.2f}" [AFloat q]] w0)
       | Raise e => (Raise e, w0)
       end) /\
    (forall days unit_time w0 oldest newest first_date last_date,
       existsb (String.eqb unit_time) ["day"; "week"; "month"; "year"] = true ->
       last days = Some oldest -> days !! 0 = Some newest ->
       datetime.strptime P oldest "%d/%m/%y" = Ok first_date ->
       datetime.strptime P newest "%d/%m/%y" = Ok last_date ->
       exists delta_du,
         dateutil.relativedelta last_date first_date = Ok delta_du /\
         calculate_average_messages_per_unit_time P self days unit_time w0 =
         match true_div (Z.of_nat (length senders))
                 (interval_of unit_time (datetime.sub_days last_date first_date) delta_du) with
         | Ok q => (Ok tt, say [Line "[INFO]: Average Messages/{}: {:.2f}"
                                     [AStr (Py.title unit_time); AFloat q]] w0)
         | Raise e => (Raise e, w0)
         end).
Proof.
  intros H0 L0 H1 L1 H2 L2 H3 L3.
  eexists _, _. split; [eapply init_cache_run; eauto|].
  split; [reflexivity|]. split; [reflexivity|]. split; [|split].
  - intros users w0 Hne. destruct (decide (length senders = 0)) as [Hz|Hnz].
    + by apply user_loop_zero.
    + unfold calculate_total_messages_per_user.
      destruct (Py.sorted Py.item_leb (Py.Counter users)) as [|item items] eqn:E.
      { pose proof (sum_counts_sorted (Py.Counter users)) as Hsum.
        rewrite sum_counts_Counter, E in Hsum. destruct users; [contradiction|]. simpl in Hsum. lia. }
      rewrite length_map.
      apply (user_loop_run (length senders) (item :: items) ltac:(lia) [] w0).
  - intros texts w0. unfold calculate_average_words_per_message, bind, lift, print. simpl.
    destruct (true_div _ _); reflexivity.
  - intros days unit_time w0 oldest newest first_date last_date Hunit Hlast Hhead Hf Hl.
    destruct (unit_time_prologue P (Self "%A, %d %B %Y at %H:%M %Z" "%d/%m/%y" "%H:%M"
                                      [senders; msgs; dates; times] (length senders))
                days unit_time w0 _ _ _ _ Hlast Hhead Hf Hl) as (delta_du & Hdu & ->).
    exists delta_du. split; [exact Hdu|]. rewrite Hunit. unfold bind, lift, print. simpl.
    destruct (true_div _ _); reflexivity.
Qed.

Lemma cache_mode_total_is_senders_length_sample :
  exists self w',
    init Sample.platform "171.html" false Sample.uneven_cache = (Ok self, w') /\
    data self = [[]; ["hi"]; ["20/01/23"; "10/01/23"]; ["09:15"]] /\
    total_msgs self = @length string [] /\
    (forall users w0, users <> [] ->
       calculate_total_messages_per_user self users w0 =
       if decide (@length string [] = 0) then (Raise ZeroDivisionError, w0)
       else (Ok tt, say (map (user_line (@length string []))
                             (Py.sorted Py.item_leb (Py.Counter users))) w0)) /\
    (forall texts w0,
       calculate_average_words_per_message self texts w0 =
       match true_div (Z.of_nat (count_words texts)) (Z.of_nat (@length string [])) with
       | Ok q => (Ok tt, say [Line "[INFO]: Average Words/Message: {:.2f}" [AFloat q]] w0)
       | Raise e => (Raise e, w0)
       end) /\
    (forall days unit_time w0 oldest newest first_date last_date,
       existsb (String.eqb unit_time) ["day"; "week"; "month"; "year"] = true ->
       last days = Some oldest -> days !! 0 = Some newest ->
       datetime.strptime Sample.platform oldest "%d/%m/%y" = Ok first_date ->
       datetime.strptime Sample.platform newest "%d/%m/%y" = Ok last_date ->
       exists delta_du,
         dateutil.relativedelta last_date first_date = Ok delta_du /\
         calculate_average_messages_per_unit_time Sample.platform self days unit_time w0 =
         match true_div (Z.of_nat (@length string []))
                 (interval_of unit_time (datetime.sub_days last_date first_date) delta_du) with
         | Ok q => (Ok tt, say [Line "[INFO]: Average Messages/{}: {:.2f}"
                                     [AStr (Py.title unit_time); AFloat q]] w0)
         | Raise e => (Raise e, w0)
         end).
Proof.
  apply (cache_mode_total_is_senders_length Sample.platform "171.html" Sample.uneven_cache
           (Framing.dumps []) (Framing.dumps ["hi"])
           (Framing.dumps ["20/01/23"; "10/01/23"]) (Framing.dumps ["09:15"])
           [] ["hi"] ["20/01/23"; "10/01/23"] ["09:15"]);
    reflexivity.
Defined.

(** C10, as stated, fails for the average per unit of time. With a cache
    of no senders and two dates ten days apart, that average is 0 / 10
    and is printed, while a division by the number of senders raises, as
    it does for the words per message. *)
Lemma unit_time_average_divides_by_interval :
  exists self w',
    init Sample.platform "171.html" false Sample.uneven_cache = (Ok self, w') /\
    data self = [[]; ["hi"]; ["20/01/23"; "10/01/23"]; ["09:15"]] /\
    total_msgs self = 0 /\
    calculate_average_messages_per_unit_time Sample.platform self
      ["20/01/23"; "10/01/23"] "day" w'
    = (Ok tt, say [Line "[INFO]: Average Messages/{}: {:.2f}" [AStr "Day"; AFloat 0]] w') /\
    calculate_average_words_per_message self ["hi"] w' = (Raise ZeroDivisionError, w').
Proof.
  eexists _, _. split; [vm_compute; reflexivity|].
  repeat split.
Qed.

(** * Further properties *)

(** ** Extraction, element by element *)

Lemma for_each_app {A B} (f : B -> A -> result B) (l1 l2 : list A) : forall acc,
  for_each f (l1 ++ l2) acc = let? acc' := for_each f l1 acc in for_each f l2 acc'.
Proof.
  induction l1 as [|x l1 IH]; intros acc; simpl; [reflexivity|].
  destruct (f acc x); simpl; [apply IH|reflexivity].
Qed.

(** The two nested loops are one loop over the message elements. *)
Lemma nested_loops_flat {A B C} (f : B -> A -> result B) (g : C -> list A) (l : list C) :
  forall acc,
  for_each (fun acc c => for_each f (g c) acc) l acc = for_each f (flat_map g l) acc.
Proof.
  induction l as [|c l IH]; intros acc; simpl; [reflexivity|].
  rewrite for_each_app. destruct (for_each f (g c) acc); simpl; [apply IH|reflexivity].
Qed.

Section Elements.

Context (P : platform) (self : FacebookConversationAnalysis).

Lemma extract_soup_flat soup :
  extract_soup P self soup =
  let? (users, msgs, dates, times) :=
    for_each (extract_chat P self) (message_elements soup) ([], [], [], []) in
  Ok [users; msgs; dates; times].
Proof. unfold extract_soup, message_elements. by rewrite nested_loops_flat. Qed.

(** The loop body appends what the element yields on its own. *)
Lemma extract_chat_appends users msgs dates times chat :
  extract_chat P self (users, msgs, dates, times) chat =
  match record_of P self chat with
  | Ok (u, m, d, t) => Ok (users ++ u, msgs ++ m, dates ++ d, times ++ t)
  | Raise e => Raise e
  end.
Proof.
  unfold record_of, extract_chat.
  destruct (not_none (bs4.find "user" _)); simpl; [|reflexivity].
  destruct (not_none (bs4.next_sibling chat)); simpl; [|reflexivity].
  destruct (not_none (bs4.find "meta" _)); simpl; [|reflexivity].
  destruct (not_none (bs4.string_of _)); simpl; [|reflexivity].
  destruct (datetime.strptime _ _ _); simpl; reflexivity.
Qed.

Lemma record_of_singletons chat r :
  record_of P self chat = Ok r -> exists u m d t, r = ([u], [m], [d], [t]).
Proof.
  unfold record_of, extract_chat.
  destruct (not_none (bs4.find "user" _)); simpl; [|discriminate].
  destruct (not_none (bs4.next_sibling chat)); simpl; [|discriminate].
  destruct (not_none (bs4.find "meta" _)); simpl; [|discriminate].
  destruct (not_none (bs4.string_of _)); simpl; [|discriminate].
  destruct (datetime.strptime _ _ _); simpl; [|discriminate].
  intros [= <-]. eauto.
Qed.

Lemma loop_aligned chats : forall users msgs dates times users' msgs' dates' times',
  for_each (extract_chat P self) chats (users, msgs, dates, times)
    = Ok (users', msgs', dates', times') ->
  length users = length msgs -> length users = length dates -> length users = length times ->
  forall i chat, chats !! i = Some chat ->
    exists u m d t,
      record_of P self chat = Ok ([u], [m], [d], [t]) /\
      users' !! (length users + i) = Some u /\ msgs' !! (length users + i) = Some m /\
      dates' !! (length users + i) = Some d /\ times' !! (length users + i) = Some t.
Proof.
  induction chats as [|c chats IH]; intros users msgs dates times users' msgs' dates' times'.
  - intros _ _ _ _ i chat Hi. rewrite lookup_nil in Hi. discriminate.
  - cbn [for_each]. rewrite extract_chat_appends.
    destruct (record_of P self c) as [r|] eqn:Hr; [|discriminate].
    destruct (record_of_singletons _ _ Hr) as (u & m & d & t & ->).
    cbn [rbind]. intros Hrest Hm Hd Ht.
    assert (Hkeep : forall (l l' : list string) x,
              length l = length users ->
              (forall j y, (l ++ [x]) !! j = Some y -> l' !! j = Some y) ->
              l' !! length users = Some x).
    { intros l l' x Hl H. apply H. rewrite <- Hl. by rewrite list_lookup_middle. }
    assert (Hprefix : forall j y,
              ((users ++ [u]) !! j = Some y -> users' !! j = Some y) /\
              ((msgs ++ [m]) !! j = Some y -> msgs' !! j = Some y) /\
              ((dates ++ [d]) !! j = Some y -> dates' !! j = Some y) /\
              ((times ++ [t]) !! j = Some y -> times' !! j = Some y)).
    { clear IH Hkeep Hr. revert users' msgs' dates' times' Hrest.
      generalize (users ++ [u]) (msgs ++ [m]) (dates ++ [d]) (times ++ [t]).
      induction chats as [|c' chats IH']; intros a b c0 e users' msgs' dates' times'.
      - cbn [for_each]. intros [= <- <- <- <-]. tauto.
      - cbn [for_each]. rewrite extract_chat_appends.
        destruct (record_of P self c') as [[[[u1 m1] d1] t1]|]; [|discriminate].
        cbn [rbind]. intros Hrest j y.
        destruct (IH' _ _ _ _ _ _ _ _ Hrest j y) as (H1 & H2 & H3 & H4).
        repeat split; intros Hj; [apply H1|apply H2|apply H3|apply H4];
          by apply lookup_app_l_Some. }
    intros i chat Hi. destruct i as [|i].
    + injection Hi as <-. exists u, m, d, t. rewrite Nat.add_0_r.
      split; [exact Hr|].
      repeat split.
      * apply (Hkeep users users' u eq_refl). intros j y. apply Hprefix.
      * apply (Hkeep msgs msgs' m (eq_sym Hm)). intros j y. apply Hprefix.
      * apply (Hkeep dates dates' d (eq_sym Hd)). intros j y. apply Hprefix.
      * apply (Hkeep times times' t (eq_sym Ht)). intros j y. apply Hprefix.
    + cbn [lookup list_lookup] in Hi.
      destruct (IH _ _ _ _ _ _ _ _ Hrest) with (i := i) (chat := chat)
        as (u' & m' & d' & t' & Hrec & Hu & Hm' & Hd' & Ht').
      * rewrite !length_app. simpl. lia.
      * rewrite !length_app. simpl. lia.
      * rewrite !length_app. simpl. lia.
      * exact Hi.
      * exists u', m', d', t'. rewrite length_app in Hu, Hm', Hd', Ht'. simpl in *.
        replace (length users + S i) with (length users + 1 + i) by lia. tauto.
Qed.

End Elements.

(** X1. The four lists are aligned and in document order: their i-th
    entries are the sender, text, date and time that the loop body
    yields for the i-th message element. *)
Theorem extraction_is_aligned (P : platform) (self : FacebookConversationAnalysis)
    (soup : bs4.node) (users msgs dates times : list string) :
  extract_soup P self soup = Ok [users; msgs; dates; times] ->
  forall i chat, message_elements soup !! i = Some chat ->
    exists u m d t,
      record_of P self chat = Ok ([u], [m], [d], [t]) /\
      users !! i = Some u /\ msgs !! i = Some m /\
      dates !! i = Some d /\ times !! i = Some t.
Proof.
  rewrite extract_soup_flat.
  destruct (for_each _ _ _) as [[[[us ms] ds] ts]|] eqn:E; [|discriminate].
  cbn [rbind]. intros [= <- <- <- <-] i chat Hi.
  apply (loop_aligned P self _ _ _ _ _ _ _ _ _ E eq_refl eq_refl eq_refl i chat Hi).
Qed.

Lemma extraction_is_aligned_sample :
  exists u m d t,
    record_of Sample.platform Sample.self
      (bs4.Element (Sample.message "Bob" "Monday, 3 April 2017 at 22:05 UTC+01")
                   (Some (bs4.Tag "p" [] [bs4.NavigableString "ok"])))
    = Ok ([u], [m], [d], [t]) /\
    ["Alice"; "Bob"; "Alice"] !! 1 = Some u /\
    ["see you  then"; "ok"; "None"] !! 1 = Some m /\
    ["04/04/17"; "03/04/17"; "03/04/17"] !! 1 = Some d /\
    ["09:45"; "22:05"; "09:15"] !! 1 = Some t.
Proof.
  apply (extraction_is_aligned Sample.platform Sample.self Sample.soup
           ["Alice"; "Bob"; "Alice"] ["see you  then"; "ok"; "None"]
           ["04/04/17"; "03/04/17"; "03/04/17"] ["09:45"; "22:05"; "09:15"]);
    vm_compute; reflexivity.
Defined.

Section Failures.

Context (P : platform) (self : FacebookConversationAnalysis).

Lemma loop_all_good chats : forall acc,
  Forall (fun chat => exists r, record_of P self chat = Ok r) chats ->
  exists acc', for_each (extract_chat P self) chats acc = Ok acc'.
Proof.
  induction chats as [|c chats IH]; intros acc Hall; cbn [for_each]; [eauto|].
  apply Forall_cons in Hall as [[r Hr] Hall].
  destruct acc as [[[users msgs] dates] times].
  rewrite extract_chat_appends, Hr. destruct r as [[[u m] d] t]. cbn [rbind].
  apply IH, Hall.
Qed.

Lemma loop_good_only chats : forall acc acc',
  for_each (extract_chat P self) chats acc = Ok acc' ->
  Forall (fun chat => exists r, record_of P self chat = Ok r) chats.
Proof.
  induction chats as [|c chats IH]; intros acc acc'; cbn [for_each]; [constructor|].
  destruct acc as [[[users msgs] dates] times].
  rewrite extract_chat_appends.
  destruct (record_of P self c) as [[[[u m] d] t]|] eqn:Hr; [|discriminate].
  cbn [rbind]. intros Hrest. constructor; eauto.
Qed.

Lemma loop_first_bad good bad rest e : forall acc,
  Forall (fun chat => exists r, record_of P self chat = Ok r) good ->
  record_of P self bad = Raise e ->
  for_each (extract_chat P self) (good ++ bad :: rest) acc = Raise e.
Proof.
  intros acc Hgood Hbad. rewrite for_each_app.
  destruct (loop_all_good good acc Hgood) as [[[[users msgs] dates] times] ->].
  cbn [rbind for_each]. rewrite extract_chat_appends, Hbad. reflexivity.
Qed.

End Failures.

(** X2. Extraction returns exactly when every message element of the
    document can be read; there is no partial result. *)
Theorem extraction_returns_iff_all_elements_read (P : platform)
    (self : FacebookConversationAnalysis) (soup : bs4.node) :
  (exists data, extract_soup P self soup = Ok data) <->
  Forall (fun chat => exists r, record_of P self chat = Ok r) (message_elements soup).
Proof.
  rewrite extract_soup_flat. split.
  - intros [data H].
    destruct (for_each _ _ _) as [acc|] eqn:E; [|discriminate].
    eapply loop_good_only, E.
  - intros Hall.
    destruct (loop_all_good P self _ ([], [], [], []) Hall) as [[[[us ms] ds] ts] ->].
    cbn [rbind]. eauto.
Qed.

(** X3. When an element cannot be read, the extraction raises the
    exception of the first such element in document order, whatever
    follows it. *)
Theorem extraction_raises_at_first_unread_element (P : platform)
    (self : FacebookConversationAnalysis) (soup : bs4.node)
    (good rest : list bs4.element) (bad : bs4.element) (e : exn) :
  message_elements soup = good ++ bad :: rest ->
  Forall (fun chat => exists r, record_of P self chat = Ok r) good ->
  record_of P self bad = Raise e ->
  extract_soup P self soup = Raise e.
Proof.
  intros Hsplit Hgood Hbad. rewrite extract_soup_flat, Hsplit.
  by rewrite (loop_first_bad P self good bad rest e _ Hgood Hbad).
Qed.

Lemma extraction_raises_at_first_unread_element_sample :
  extract_soup Sample.platform Sample.self Sample2.bad_soup = Raise ValueError.
Proof.
  apply (extraction_raises_at_first_unread_element Sample.platform Sample.self Sample2.bad_soup
           [bs4.Element (Sample.message "Alice" "Tuesday, 4 April 2017 at 09:45 UTC+01")
                        (Some (Sample.message "Bob" "Tuesday, 4 April 2017 at 09:50 UTC+02"))]
           [bs4.Element (Sample.message "Carol" "no date")
                        None]
           (bs4.Element (Sample.message "Bob" "Tuesday, 4 April 2017 at 09:50 UTC+02")
                        (Some (Sample.message "Carol" "no date")))
           ValueError).
  - vm_compute. reflexivity.
  - repeat constructor. eexists. vm_compute. reflexivity.
  - vm_compute. reflexivity.
Defined.

(** X4. When the extraction fails, the constructor fails with it after
    the one line that announces the extraction: no cache file is
    written and no object is built. *)
Theorem failed_extraction_writes_no_cache (P : platform) (html_file : string)
    (w w1 : world) (e : exn) :
  extract_data_from_html_file P
    (Self "%A, %d %B %Y at %H:%M %Z" "%d/%m/%y" "%H:%M" [] 0) html_file w = (Raise e, w1) ->
  init P html_file true w = (Raise e, w1) /\
  w1 = say [Line "[INFO]: Extracting data from {}" [AStr html_file]] w /\
  files w1 = files w.
Proof.
  intros H. split.
  - unfold init. cbv zeta. unfold bind at 1 2. by rewrite H.
  - rewrite extract_run in H. cbv zeta in H.
    destruct (files w !! html_file) as [b|].
    2:{ injection H as _ <-. split; reflexivity. }
    destruct (BeautifulSoup P b) as [soup|].
    2:{ injection H as _ <-. split; reflexivity. }
    destruct (extract_soup P _ soup); [discriminate|].
    injection H as _ <-. split; reflexivity.
Qed.

Lemma failed_extraction_writes_no_cache_sample :
  init Sample.platform "missing.html" true Sample.world
  = (Raise FileNotFoundError,
     say [Line "[INFO]: Extracting data from {}" [AStr "missing.html"]] Sample.world) /\
  say [Line "[INFO]: Extracting data from {}" [AStr "missing.html"]] Sample.world
  = say [Line "[INFO]: Extracting data from {}" [AStr "missing.html"]] Sample.world /\
  files (say [Line "[INFO]: Extracting data from {}" [AStr "missing.html"]] Sample.world)
  = files Sample.world.
Proof.
  apply (failed_extraction_writes_no_cache Sample.platform "missing.html" Sample.world).
  reflexivity.
Defined.

(** ** What reads and what writes *)

Lemma only_prints_ret {A} (a : A) : only_prints (ret a).
Proof. intros w. exists []. by rewrite say_nil. Qed.

Lemma only_prints_lift {A} (r : result A) : only_prints (lift r).
Proof. intros w. exists []. by rewrite say_nil. Qed.

Lemma only_prints_print l : only_prints (print l).
Proof. intros w. by exists [l]. Qed.

Lemma only_prints_read_file name : only_prints (read_file name).
Proof.
  intros w. exists []. unfold read_file.
  destruct (files w !! name); by rewrite say_nil.
Qed.

Lemma only_prints_bind {A B} (m : M A) (k : A -> M B) :
  only_prints m -> (forall a, only_prints (k a)) -> only_prints (bind m k).
Proof.
  intros Hm Hk w. unfold bind. destruct (Hm w) as [l1 H1].
  destruct (m w) as [[a|e] w1]; simpl in H1; subst w1.
  - destruct (Hk a (say l1 w)) as [l2 H2]. exists (l1 ++ l2). by rewrite H2, say_say.
  - by exists l1.
Qed.

Lemma only_prints_for_ {A} (l : list A) (body : A -> M unit) :
  (forall x, only_prints (body x)) -> only_prints (for_ l body).
Proof.
  intros Hbody. induction l as [|x l IH]; cbn [for_].
  - apply only_prints_ret.
  - apply only_prints_bind; [apply Hbody|intros _; exact IH].
Qed.

Lemma only_prints_if {A} (b : bool) (m1 m2 : M A) :
  only_prints m1 -> only_prints m2 -> only_prints (if b then m1 else m2).
Proof. by destruct b. Qed.

Ltac only_prints :=
  repeat first
    [ apply only_prints_ret | apply only_prints_lift | apply only_prints_print
    | apply only_prints_read_file
    | apply only_prints_bind; [|intros ?]
    | apply only_prints_for_; intros ?
    | apply only_prints_if ].

Lemma only_prints_load_pickle P name : only_prints (load_pickle P name).
Proof. unfold load_pickle. only_prints. Qed.

Lemma only_prints_extract P self html_file :
  only_prints (extract_data_from_html_file P self html_file).
Proof. unfold extract_data_from_html_file. only_prints. Qed.

(** X5. The four statistics are read-only: whatever they are given and
    whether they return or raise, all they do to the world is print
    lines; files and charts are as before. *)
Theorem statistics_only_print (P : platform) (self : FacebookConversationAnalysis)
    (l : list string) (unit_time : string) (w : world) :
  (exists lines, snd (calculate_total_messages_per_user self l w) = say lines w) /\
  (exists lines, snd (calculate_average_words_per_message self l w) = say lines w) /\
  (exists lines,
     snd (calculate_average_messages_per_unit_time P self l unit_time w) = say lines w) /\
  (exists lines, snd (find_most_active_day l w) = say lines w).
Proof.
  repeat split.
  - enough (H : only_prints (calculate_total_messages_per_user self l)) by apply H.
    unfold calculate_total_messages_per_user.
    destruct (Py.sorted Py.item_leb (Py.Counter l)); only_prints.
  - enough (H : only_prints (calculate_average_words_per_message self l)) by apply H.
    unfold calculate_average_words_per_message. only_prints.
  - enough (H : only_prints (calculate_average_messages_per_unit_time P self l unit_time)) by apply H.
    unfold calculate_average_messages_per_unit_time. only_prints.
  - enough (H : only_prints (find_most_active_day l)) by apply H.
    unfold find_most_active_day.
    destruct (Py.Counter l); only_prints.
Qed.

(** X6. Building the object from the cache, and extracting a document,
    write no file either, whatever their outcome. *)
Theorem cache_mode_and_extraction_write_nothing (P : platform)
    (self : FacebookConversationAnalysis) (html_file : string) (w : world) :
  (exists lines, snd (init P html_file false w) = say lines w) /\
  (exists lines, snd (extract_data_from_html_file P self html_file w) = say lines w).
Proof.
  split; [|apply only_prints_extract].
  enough (H : only_prints (init P html_file false)) by apply H.
  unfold init, pickle_file_names. cbv zeta. cbn [fold_left].
  repeat first [ apply only_prints_load_pickle | progress only_prints ].
Qed.

(** ** One run after another *)

Section Reruns.

Context (P : platform).

(** What a successful re-extracting constructor has done. *)
Lemma init_reextract_inv html_file w self w' :
  init P html_file true w = (Ok self, w') ->
  exists users msgs dates times,
    self = Self "%A, %d %B %Y at %H:%M %Z" "%d/%m/%y" "%H:%M"
                [users; msgs; dates; times] (length users) /\
    w' = say [Line "[INFO]: {} saved" [AStr "pickles/times.pickle"]]
          (put "pickles/times.pickle" (pickle_dumps P times)
          (say [Line "[INFO]: {} saved" [AStr "pickles/dates.pickle"]]
          (put "pickles/dates.pickle" (pickle_dumps P dates)
          (say [Line "[INFO]: {} saved" [AStr "pickles/messages.pickle"]]
          (put "pickles/messages.pickle" (pickle_dumps P msgs)
          (say [Line "[INFO]: {} saved" [AStr "pickles/senders.pickle"]]
          (put "pickles/senders.pickle" (pickle_dumps P users)
          (say [Line "[INFO]: Extracting data from {}" [AStr html_file];
                Line "[INFO]: Data extracted from {}" [AStr html_file];
                Line "[INFO]: Extracting data from {}" [AStr html_file];
                Line "[INFO]: Data extracted from {}" [AStr html_file]] w)))))))).
Proof.
  intros H.
  set (self0 := Self "%A, %d %B %Y at %H:%M %Z" "%d/%m/%y" "%H:%M" [] 0).
  assert (Hfirst : exists b soup d,
            files w !! html_file = Some b /\ BeautifulSoup P b = Ok soup /\
            extract_soup P self0 soup = Ok d).
  { unfold init in H. cbv zeta in H. unfold bind at 1 2 in H.
    rewrite extract_run in H. cbv zeta in H.
    destruct (files w !! html_file) as [b|]; [|discriminate].
    destruct (BeautifulSoup P b) as [soup|] eqn:Es; [|discriminate].
    destruct (extract_soup P _ soup) as [d|] eqn:Ed; [|discriminate].
    exists b, soup, d. auto. }
  destruct Hfirst as (b & soup & d & Hb & Hsoup & Hd).
  destruct (extract_soup_lengths _ _ _ _ Hd) as (users & msgs & dates & times & -> & _).
  rewrite (init_reextract_run P html_file w b soup users msgs dates times Hb Hsoup Hd) in H.
  cbv zeta in H. unfold bind in H.
  do 4 (rewrite save_pickle_run in H;
        match type of H with
        | context [decide (?x ∈ ?s)] =>
            let Hw := fresh "Hwritable" in
            destruct (decide (x ∈ s)) as [|Hw]; [discriminate|]
        end;
        cbv beta iota in H).
  injection H as <- <-. exists users, msgs, dates, times. split; reflexivity.
Qed.

End Reruns.

(** X7. A run from the cache after a successful run with the re-extract
    flag builds the very same object, for any document name: the cache
    files are found, and each loads to the list that was saved. *)
Theorem cache_run_rebuilds_the_object (P : platform)
    (pickle_law : forall l, pickle_loads P (pickle_dumps P l) = Ok l)
    (html_file other_file : string) (w w' : world) (self : FacebookConversationAnalysis) :
  init P html_file true w = (Ok self, w') ->
  init P other_file false w'
  = (Ok self,
     say [Line "[INFO]: {} loaded" [AStr "pickles/senders.pickle"];
          Line "[INFO]: {} loaded" [AStr "pickles/messages.pickle"];
          Line "[INFO]: {} loaded" [AStr "pickles/dates.pickle"];
          Line "[INFO]: {} loaded" [AStr "pickles/times.pickle"]] w').
Proof.
  intros H.
  destruct (init_reextract_inv P html_file w self w' H)
    as (users & msgs & dates & times & -> & ->).
  apply (init_cache_run P other_file _
           (pickle_dumps P users) (pickle_dumps P msgs)
           (pickle_dumps P dates) (pickle_dumps P times));
    try apply pickle_law;
    cbn [files say put]; rewrite ?lookup_insert_ne by discriminate;
    apply lookup_insert_eq.
Qed.

Lemma cache_run_rebuilds_the_object_sample :
  exists w',
    init Sample.platform "171.html" true Sample.world = (Ok Sample.self, w') /\
    init Sample.platform "anything.html" false w'
    = (Ok Sample.self,
       say [Line "[INFO]: {} loaded" [AStr "pickles/senders.pickle"];
            Line "[INFO]: {} loaded" [AStr "pickles/messages.pickle"];
            Line "[INFO]: {} loaded" [AStr "pickles/dates.pickle"];
            Line "[INFO]: {} loaded" [AStr "pickles/times.pickle"]] w').
Proof.
  eexists. split; [vm_compute; reflexivity|].
  apply (cache_run_rebuilds_the_object Sample.platform framing_round_trip
           "171.html" "anything.html" Sample.world).
  vm_compute. reflexivity.
Defined.

(** X8. The cache is not written as a whole. When the second cache file
    cannot be written, the constructor raises after it has replaced the
    first: the senders on disk are new, the three other files are as
    they were, and no object is built. *)
Theorem unwritable_file_leaves_partial_cache (P : platform) (html_file : string) (w : world)
    (b : list byte) (soup : bs4.node) (users msgs dates times : list string) :
  files w !! html_file = Some b -> BeautifulSoup P b = Ok soup ->
  extract_soup P (Self "%A, %d %B %Y at %H:%M %Z" "%d/%m/%y" "%H:%M" [] 0) soup
    = Ok [users; msgs; dates; times] ->
  "pickles/senders.pickle" ∉ unwritable w ->
  "pickles/messages.pickle" ∈ unwritable w ->
  exists w',
    init P html_file true w = (Raise PermissionError, w') /\
    files w' = <["pickles/senders.pickle" := pickle_dumps P users]> (files w).
Proof.
  intros Hb Hsoup Hd Hfree Hlocked.
  rewrite (init_reextract_run P html_file w b soup users msgs dates times Hb Hsoup Hd).
  cbv zeta. unfold bind.
  rewrite save_pickle_run. cbn [unwritable say].
  destruct (decide ("pickles/senders.pickle" ∈ unwritable w)); [contradiction|].
  rewrite save_pickle_run. cbn [unwritable say put].
  destruct (decide ("pickles/messages.pickle" ∈ unwritable w)); [|contradiction].
  eexists. split; reflexivity.
Qed.

Lemma unwritable_file_leaves_partial_cache_sample :
  exists w',
    init Sample.platform "171.html" true Sample2.locked_world = (Raise PermissionError, w') /\
    files w' = <["pickles/senders.pickle" :=
                   pickle_dumps Sample.platform ["Alice"; "Bob"; "Alice"]]>
                 (files Sample2.locked_world).
Proof.
  apply (unwritable_file_leaves_partial_cache Sample.platform "171.html" Sample2.locked_world
           Sample.html Sample.soup
           ["Alice"; "Bob"; "Alice"] ["see you  then"; "ok"; "None"]
           ["04/04/17"; "03/04/17"; "03/04/17"] ["09:45"; "22:05"; "09:15"]);
    try (vm_compute; reflexivity).
  vm_compute. discriminate.
Defined.

(** X9. The script takes its data from the cache alone. Without the
    first cache file it stops with [FileNotFoundError] before it has
    printed a line or drawn a chart, whether or not the document is
    there. *)
Theorem script_needs_the_cache (P : platform) (w : world) :
  files w !! "pickles/senders.pickle" = None ->
  main P w = (Raise FileNotFoundError, w).
Proof.
  intros Hnone. unfold main, init, pickle_file_names. cbv zeta. cbn [fold_left].
  unfold bind, ret. rewrite load_pickle_run, Hnone. reflexivity.
Qed.

Lemma script_needs_the_cache_sample :
  main Sample.platform Sample.world = (Raise FileNotFoundError, Sample.world).
Proof.
  apply (script_needs_the_cache Sample.platform Sample.world).
  vm_compute. reflexivity.
Defined.

(** ** Counting and sorting *)

Lemma count_of_incr k k' c :
  count_of k (Py.counter_incr k' c)
  = if String.eqb k k' then S (count_of k c) else count_of k c.
Proof.
  induction c as [|[k0 n] c IH]; cbn [Py.counter_incr count_of].
  - destruct (String.eqb k k'); reflexivity.
  - destruct (String.eqb_spec k' k0) as [->|Hne]; cbn [count_of].
    + destruct (String.eqb k k0); reflexivity.
    + rewrite IH. destruct (String.eqb_spec k k0) as [->|]; [|reflexivity].
      destruct (String.eqb_spec k0 k'); [congruence|reflexivity].
Qed.

Lemma count_of_Counter k l : count_of k (Py.Counter l) = occurrences k l.
Proof.
  unfold Py.Counter.
  enough (H : forall c, count_of k (fold_left (fun c k => Py.counter_incr k c) l c)
                        = count_of k c + occurrences k l) by apply H.
  induction l as [|x l IH]; intros c; cbn [fold_left occurrences]; [lia|].
  rewrite IH, count_of_incr. destruct (String.eqb k x); lia.
Qed.

Lemma occurrences_pos k l : 0 < occurrences k l <-> k ∈ l.
Proof.
  induction l as [|x l IH]; cbn [occurrences].
  - split; [lia|]. intros H. by apply elem_of_nil in H.
  - rewrite elem_of_cons. destruct (String.eqb_spec k x) as [->|Hne].
    + split; [auto|lia].
    + rewrite <- IH. split; [intros; right; lia|]. intros [?|?]; [contradiction|lia].
Qed.

Lemma elem_of_map_fst (k : string) (n : nat) c : (k, n) ∈ c -> k ∈ map fst c.
Proof.
  induction c as [|[k0 n0] c IH]; [intros H; by apply elem_of_nil in H|].
  cbn [map fst]. rewrite !elem_of_cons. intros [[= -> ->]|H]; auto.
Qed.

Lemma counter_incr_keys k c :
  k ∈ map fst (Py.counter_incr k c) /\
  forall k', k' ∈ map fst (Py.counter_incr k c) <-> k' = k \/ k' ∈ map fst c.
Proof.
  induction c as [|[k0 n] c [IH1 IH2]]; cbn [Py.counter_incr map fst].
  - split; [apply list_elem_of_here|]. intros k'. rewrite list_elem_of_singleton.
    split; [auto|]. intros [?|H]; [done|by apply elem_of_nil in H].
  - destruct (String.eqb_spec k k0) as [->|Hne]; cbn [map fst].
    + split; [apply list_elem_of_here|]. intros k'. rewrite elem_of_cons. tauto.
    + split; [by apply list_elem_of_further|]. intros k'.
      rewrite !elem_of_cons, IH2. tauto.
Qed.

Lemma counter_incr_ok k c : counter_ok c -> counter_ok (Py.counter_incr k c).
Proof.
  intros [Hnd Hpos]. split.
  - induction c as [|[k0 n] c IH]; cbn [Py.counter_incr map fst].
    + repeat constructor. intros H. by apply elem_of_nil in H.
    + cbn [map fst] in Hnd. apply NoDup_cons in Hnd as [Hk0 Hnd].
      apply Forall_cons in Hpos as [_ Hpos].
      destruct (String.eqb_spec k k0) as [->|Hne]; cbn [map fst].
      * by apply NoDup_cons.
      * apply NoDup_cons. split; [|by apply IH].
        intros Hin. apply (counter_incr_keys k c) in Hin as [?|?]; congruence.
  - induction c as [|[k0 n] c IH]; cbn [Py.counter_incr].
    + repeat constructor.
    + apply Forall_cons in Hpos as [Hn Hpos]. cbn [map fst] in Hnd.
      apply NoDup_cons in Hnd as [_ Hnd].
      destruct (String.eqb k k0); constructor; cbn [snd] in *; auto with lia.
Qed.

Lemma Counter_ok l : counter_ok (Py.Counter l).
Proof.
  unfold Py.Counter.
  enough (H : forall c, counter_ok c ->
                        counter_ok (fold_left (fun c k => Py.counter_incr k c) l c)).
  { apply H. split; constructor. }
  induction l as [|x l IH]; intros c Hc; cbn [fold_left]; [exact Hc|].
  apply IH, counter_incr_ok, Hc.
Qed.

Lemma count_of_elem k n c :
  counter_ok c -> ((k, n) ∈ c <-> count_of k c = n /\ 0 < n).
Proof.
  intros [Hnd Hpos]. induction c as [|[k0 n0] c IH]; cbn [count_of].
  - split; [intros H; by apply elem_of_nil in H|lia].
  - cbn [map fst] in Hnd. apply NoDup_cons in Hnd as [Hk0 Hnd].
    apply Forall_cons in Hpos as [Hn0 Hpos]. cbn [snd] in Hn0.
    rewrite elem_of_cons, (IH Hnd Hpos).
    destruct (String.eqb_spec k k0) as [->|Hne].
    + split.
      * intros [[= ->]|[Hc Hn]]; [auto|].
        exfalso. apply Hk0. apply (elem_of_map_fst k0 n).
        by apply (IH Hnd Hpos).
      * intros [-> _]. by left.
    + split; [|tauto]. intros [[= ? ?]|?]; [congruence|done].
Qed.

(** An entry of [Counter l] is an element of [l] with the number of its
    occurrences, and conversely. *)
Lemma Counter_elem k n l :
  (k, n) ∈ Py.Counter l <-> k ∈ l /\ n = occurrences k l.
Proof.
  rewrite (count_of_elem k n _ (Counter_ok l)), count_of_Counter, <- occurrences_pos.
  split; [intros [<- ?]|intros [? ->]]; auto.
Qed.

Lemma insert_sorted_perm {A} (leb : A -> A -> bool) x l :
  Py.insert_sorted leb x l ≡ₚ x :: l.
Proof.
  induction l as [|y l IH]; cbn [Py.insert_sorted]; [done|].
  destruct (leb x y); [done|]. rewrite IH. apply perm_swap.
Qed.

Lemma sorted_perm {A} (leb : A -> A -> bool) l : Py.sorted leb l ≡ₚ l.
Proof.
  unfold Py.sorted. induction l as [|x l IH]; cbn [fold_right]; [done|].
  by rewrite insert_sorted_perm, IH.
Qed.

Section Sorting.

Context {A : Type} (leb : A -> A -> bool).
Hypothesis leb_total : forall a b, leb a b = true \/ leb b a = true.
Hypothesis leb_trans : forall a b c, leb a b = true -> leb b c = true -> leb a c = true.

Lemma insert_sorted_sorted x l :
  StronglySorted (fun a b => leb a b = true) l ->
  StronglySorted (fun a b => leb a b = true) (Py.insert_sorted leb x l).
Proof.
  induction l as [|y l IH]; cbn [Py.insert_sorted]; intros Hl.
  - repeat constructor.
  - apply StronglySorted_inv in Hl as [Hl Hy].
    destruct (leb x y) eqn:E.
    + constructor; [by constructor|]. constructor; [exact E|].
      eapply Forall_impl; [exact Hy|]. intros z Hz. by eapply leb_trans.
    + constructor; [by apply IH|].
      rewrite insert_sorted_perm. constructor; [|exact Hy].
      destruct (leb_total x y); congruence.
Qed.

Lemma sorted_sorted l : StronglySorted (fun a b => leb a b = true) (Py.sorted leb l).
Proof.
  unfold Py.sorted. induction l as [|x l IH]; cbn [fold_right]; [constructor|].
  by apply insert_sorted_sorted.
Qed.

End Sorting.

(** The order of strings, from [String.compare]. *)
Lemma compare_refl s : String.compare s s = Eq.
Proof.
  induction s as [|a s IH]; cbn [String.compare]; [reflexivity|].
  unfold Ascii.compare. by rewrite N.compare_refl.
Qed.

Lemma compare_lt_trans s1 s2 s3 :
  String.compare s1 s2 = Lt -> String.compare s2 s3 = Lt -> String.compare s1 s3 = Lt.
Proof.
  revert s2 s3. induction s1 as [|a1 s1 IH]; intros [|a2 s2] [|a3 s3];
    cbn [String.compare]; try done.
  destruct (Ascii.compare a1 a2) eqn:E12; try done.
  - apply Ascii.compare_eq_iff in E12 as ->.
    destruct (Ascii.compare a2 a3); try done. apply IH.
  - destruct (Ascii.compare a2 a3) eqn:E23; try done.
    + apply Ascii.compare_eq_iff in E23 as ->. by rewrite E12.
    + intros _ _. unfold Ascii.compare in *.
      rewrite N.compare_lt_iff in *. replace (_ ?= _)%N with Lt; [done|].
      symmetry. apply N.compare_lt_iff. lia.
Qed.

Lemma item_leb_total a b : Py.item_leb a b = true \/ Py.item_leb b a = true.
Proof.
  unfold Py.item_leb. rewrite (String.compare_antisym (fst a) (fst b)).
  destruct (String.compare (fst b) (fst a)); cbn [CompOpp]; [|auto..].
  rewrite !Nat.leb_le. lia.
Qed.

Lemma item_leb_trans a b c :
  Py.item_leb a b = true -> Py.item_leb b c = true -> Py.item_leb a c = true.
Proof.
  unfold Py.item_leb.
  destruct (String.compare (fst a) (fst b)) eqn:Eab; [| |discriminate].
  - apply String.compare_eq_iff in Eab as ->.
    destruct (String.compare (fst b) (fst c)); [|done..].
    rewrite !Nat.leb_le. lia.
  - destruct (String.compare (fst b) (fst c)) eqn:Ebc; [| |discriminate].
    + apply String.compare_eq_iff in Ebc as <-. by rewrite Eab.
    + by rewrite (compare_lt_trans _ _ _ Eab Ebc).
Qed.

(** Sorted items with distinct keys are in strictly ascending order of
    their keys. *)
Lemma sorted_items_ascending c :
  NoDup (map fst c) ->
  StronglySorted (fun a b => String.ltb a b = true)
                 (map fst (Py.sorted Py.item_leb c)).
Proof.
  intros Hnd.
  assert (Hnd' : NoDup (map fst (Py.sorted Py.item_leb c))).
  { by rewrite sorted_perm. }
  pose proof (sorted_sorted Py.item_leb item_leb_total item_leb_trans c) as Hs.
  induction Hs as [|a l Hl IH Ha]; cbn [map]; [constructor|].
  cbn [map] in Hnd'. apply NoDup_cons in Hnd' as [Hnotin Hnd'].
  constructor; [by apply IH|].
  clear IH Hl Hnd'. induction l as [|b l IHl]; cbn [map]; [constructor|].
  apply Forall_cons in Ha as [Hab Ha]. cbn [map] in Hnotin.
  apply not_elem_of_cons in Hnotin as [Hne Hnotin].
  constructor; [|by apply IHl].
  unfold Py.item_leb in Hab. unfold String.ltb.
  destruct (String.compare (fst a) (fst b)) eqn:E; [|done|discriminate].
  apply String.compare_eq_iff in E. contradiction.
Qed.

(** ** The two reports on counts *)

(** C7. When the senders are the [total_msgs] > 0 senders of the
    dataset, one line is printed for each distinct sender and for no one
    else, in strictly ascending order of the names; the count on the line
    of a sender is the number of its occurrences, the percentage is
    [count / total_msgs * 100], and the percentages add up to 100. *)
Theorem percentages_sum_to_100 (self : FacebookConversationAnalysis)
    (users : list string) (w : world) :
  length users = total_msgs self -> 0 < total_msgs self ->
  exists items lines,
    calculate_total_messages_per_user self users w = (Ok tt, say lines w) /\
    items = Py.sorted Py.item_leb (Py.Counter users) /\
    lines = map (user_line (total_msgs self)) items /\
    StronglySorted (fun a b => String.ltb a b = true) (map fst items) /\
    (forall u n, (u, n) ∈ items <-> u ∈ users /\ n = occurrences u users) /\
    (forall u n, (u, n) ∈ items ->
       printed_float (user_line (total_msgs self) (u, n))
       == inject_Z (Z.of_nat (occurrences u users))
          / inject_Z (Z.of_nat (total_msgs self)) * 100)%Q /\
    (Qsum (map printed_float lines) == 100)%Q.
Proof.
  intros Hlen Hpos. eexists _, _.
  split; [|split; [reflexivity|split; [reflexivity|]]].
  - unfold calculate_total_messages_per_user.
    pose proof (sum_counts_sorted (Py.Counter users)) as Hsum.
    rewrite sum_counts_Counter in Hsum.
    destruct (Py.sorted Py.item_leb (Py.Counter users)) as [|item items] eqn:E.
    { simpl in Hsum. lia. }
    rewrite length_map.
    apply (user_loop_run (total_msgs self) (item :: items) Hpos [] w).
  - split; [apply sorted_items_ascending, Counter_ok|].
    split; [intros u n; rewrite sorted_perm; apply Counter_elem|].
    split.
    + intros u n Hin. rewrite sorted_perm in Hin. apply Counter_elem in Hin as [_ ->].
      unfold printed_float, user_line. cbn [args last fst snd].
      by rewrite !Qred_correct.
    + rewrite percentages_sum by exact Hpos.
      rewrite sum_counts_sorted, sum_counts_Counter, Hlen.
      field. unfold Qeq, inject_Z; simpl. lia.
Qed.

Lemma percentages_sum_to_100_sample :
  exists items lines,
    calculate_total_messages_per_user Sample.self ["Alice"; "Bob"; "Alice"] Sample.world
    = (Ok tt, say lines Sample.world) /\
    items = Py.sorted Py.item_leb (Py.Counter ["Alice"; "Bob"; "Alice"]) /\
    lines = map (user_line (total_msgs Sample.self)) items /\
    StronglySorted (fun a b => String.ltb a b = true) (map fst items) /\
    (forall u n, (u, n) ∈ items <->
                 u ∈ ["Alice"; "Bob"; "Alice"] /\ n = occurrences u ["Alice"; "Bob"; "Alice"]) /\
    (forall u n, (u, n) ∈ items ->
       printed_float (user_line (total_msgs Sample.self) (u, n))
       == inject_Z (Z.of_nat (occurrences u ["Alice"; "Bob"; "Alice"]))
          / inject_Z (Z.of_nat (total_msgs Sample.self)) * 100)%Q /\
    (Qsum (map printed_float lines) == 100)%Q.
Proof.
  apply (percentages_sum_to_100 Sample.self ["Alice"; "Bob"; "Alice"] Sample.world).
  - reflexivity.
  - simpl. lia.
Defined.

(** X10. The per-user report has one line for each sender that occurs
    in the list and no other line; the lines are in strictly ascending
    order of the names, and the count on a line is the number of
    occurrences of its sender. *)
Theorem report_has_one_line_per_sender (self : FacebookConversationAnalysis)
    (users : list string) (w : world) :
  users <> [] -> 0 < total_msgs self ->
  exists items,
    calculate_total_messages_per_user self users w
    = (Ok tt, say (map (user_line (total_msgs self)) items) w) /\
    StronglySorted (fun a b => String.ltb a b = true) (map fst items) /\
    (forall u n, (u, n) ∈ items <-> u ∈ users /\ n = occurrences u users).
Proof.
  intros Hne Hpos. exists (Py.sorted Py.item_leb (Py.Counter users)).
  split; [|split].
  - unfold calculate_total_messages_per_user.
    destruct (Py.sorted Py.item_leb (Py.Counter users)) as [|item items] eqn:E.
    { pose proof (sum_counts_sorted (Py.Counter users)) as Hsum.
      rewrite sum_counts_Counter, E in Hsum. destruct users; [contradiction|].
      simpl in Hsum. lia. }
    rewrite length_map.
    apply (user_loop_run (total_msgs self) (item :: items) Hpos [] w).
  - apply sorted_items_ascending, Counter_ok.
  - intros u n. rewrite sorted_perm. apply Counter_elem.
Qed.

Lemma report_has_one_line_per_sender_sample :
  exists items,
    calculate_total_messages_per_user Sample.self ["Bob"; "Alice"; "Bob"] Sample.world
    = (Ok tt, say (map (user_line (total_msgs Sample.self)) items) Sample.world) /\
    StronglySorted (fun a b => String.ltb a b = true) (map fst items) /\
    (forall u n, (u, n) ∈ items <->
                 u ∈ ["Bob"; "Alice"; "Bob"] /\ n = occurrences u ["Bob"; "Alice"; "Bob"]).
Proof.
  apply (report_has_one_line_per_sender Sample.self ["Bob"; "Alice"; "Bob"] Sample.world).
  - discriminate.
  - simpl. lia.
Defined.

(** The entry that [max] picks: the first one whose value no other
    exceeds. *)
Lemma max_by_value_first best c :
  exists before after,
    best :: c = before ++ Py.max_by_value best c :: after /\
    Forall (fun item => snd item < snd (Py.max_by_value best c)) before /\
    Forall (fun item => snd item <= snd (Py.max_by_value best c)) after.
Proof.
  revert best. induction c as [|[k n] c IH]; intros best; cbn [Py.max_by_value].
  - exists [], []. repeat split; constructor.
  - destruct (Nat.ltb_spec (snd best) n) as [Hlt|Hge].
    + destruct (IH (k, n)) as (before & after & Heq & Hb & Ha).
      set (m := Py.max_by_value (k, n) c) in *.
      assert (Hmax : n <= snd m).
      { destruct before as [|x before].
        - injection Heq as Hm _. rewrite <- Hm. simpl. lia.
        - injection Heq as Hx _. apply Forall_cons in Hb as [Hx' _].
          rewrite <- Hx in Hx'. simpl in Hx'. lia. }
      exists (best :: before), after. rewrite <- app_comm_cons, <- Heq.
      split; [reflexivity|]. split; [|exact Ha]. constructor; [lia|exact Hb].
    + destruct (IH best) as (before & after & Heq & Hb & Ha).
      set (m := Py.max_by_value best c) in *.
      destruct before as [|x before].
      * injection Heq as Hm Hc. exists [], ((k, n) :: after).
        split; [simpl; by rewrite <- Hm, <- Hc|].
        split; [constructor|]. constructor; [|exact Ha].
        rewrite <- Hm. simpl. lia.
      * injection Heq as Hx Hc. apply Forall_cons in Hb as [Hx' Hb].
        exists (best :: (k, n) :: before), after.
        split; [simpl; by rewrite <- Hc|]. split; [|exact Ha].
        rewrite <- Hx in Hx'.
        constructor; [exact Hx'|]. constructor; [simpl; lia|exact Hb].
Qed.

Lemma true_div_pos a n :
  0 < n -> true_div a (Z.of_nat n) = Ok (Qred (inject_Z a / inject_Z (Z.of_nat n))).
Proof.
  intros Hn. unfold true_div. destruct (Z.eqb_spec (Z.of_nat n) 0); [lia|reflexivity].
Qed.

(** X11. For a list with at least one date, the most active day that
    is reported is a date of the list, its count is the number of its
    occurrences, and no date occurs more often; the seconds per message
    are 86400 over that count, which is never zero. *)
Theorem most_active_day_is_a_mode (dates : list string) (w : world) :
  dates <> [] ->
  exists date n,
    find_most_active_day dates w
    = (Ok tt,
       say [Line ("[INFO]: Most active day was {} with {} messages sent. "
                  ++ "Thats a message every {:.2f} seconds!")
                 [AStr date; AInt (Z.of_nat n);
                  AFloat (Qred (inject_Z 86400 / inject_Z (Z.of_nat n)))]] w) /\
    date ∈ dates /\ n = occurrences date dates /\ 0 < n /\
    (forall d, occurrences d dates <= n).
Proof.
  intros Hne. unfold find_most_active_day.
  destruct (Py.Counter dates) as [|first others] eqn:E.
  { pose proof (sum_counts_Counter dates) as H. rewrite E in H.
    destruct dates; [contradiction|discriminate]. }
  destruct (max_by_value_first first others) as (before & after & Heq & Hb & Ha).
  destruct (Py.max_by_value first others) as [date n] eqn:Emax. cbn [fst snd] in *.
  assert (Hin : (date, n) ∈ Py.Counter dates).
  { rewrite E, Heq. apply elem_of_app. right. apply list_elem_of_here. }
  assert (Hn : 0 < n).
  { apply (count_of_elem _ _ _ (Counter_ok dates)) in Hin. lia. }
  apply Counter_elem in Hin as [Hdate Hocc].
  exists date, n. split; [|split; [exact Hdate|split; [exact Hocc|split; [exact Hn|]]]].
  - unfold bind, lift. rewrite (true_div_pos _ _ Hn). reflexivity.
  - intros d. destruct (Nat.eq_dec (occurrences d dates) 0) as [->|Hd]; [lia|].
    assert (Hd' : (d, occurrences d dates) ∈ Py.Counter dates).
    { apply Counter_elem. split; [apply occurrences_pos; lia|reflexivity]. }
    rewrite E, Heq in Hd'. apply elem_of_app in Hd' as [Hd'|Hd'].
    + rewrite Forall_forall in Hb. apply Hb in Hd'. simpl in Hd'. lia.
    + apply elem_of_cons in Hd' as [[= _ ->]|Hd']; [lia|].
      rewrite Forall_forall in Ha. apply Ha in Hd'. simpl in Hd'. lia.
Qed.

Lemma most_active_day_is_a_mode_sample :
  exists date n,
    find_most_active_day ["15/03/23"; "15/03/23"; "14/03/23"] Sample.world
    = (Ok tt,
       say [Line ("[INFO]: Most active day was {} with {} messages sent. "
                  ++ "Thats a message every {:.2f} seconds!")
                 [AStr date; AInt (Z.of_nat n);
                  AFloat (Qred (inject_Z 86400 / inject_Z (Z.of_nat n)))]] Sample.world) /\
    date ∈ ["15/03/23"; "15/03/23"; "14/03/23"] /\
    n = occurrences date ["15/03/23"; "15/03/23"; "14/03/23"] /\ 0 < n /\
    (forall d, occurrences d ["15/03/23"; "15/03/23"; "14/03/23"] <= n).
Proof.
  apply (most_active_day_is_a_mode ["15/03/23"; "15/03/23"; "14/03/23"] Sample.world).
  discriminate.
Defined.

(** The counter of [x :: l]: [x] first, then the counter of the rest
    without [x]. This is the order of first appearance. *)
Lemma Counter_from x m c l :
  fold_left (fun c k => Py.counter_incr k c) l ((x, m) :: c)
  = (x, m + occurrences x l)
    :: fold_left (fun c k => Py.counter_incr k c) (without x l) c.
Proof.
  revert m c. induction l as [|y l IH]; intros m c; cbn [fold_left occurrences without List.filter].
  - by rewrite Nat.add_0_r.
  - cbn [Py.counter_incr]. rewrite (String.eqb_sym y x).
    destruct (String.eqb x y); cbn [negb].
    + rewrite IH. f_equal. f_equal. lia.
    + cbn [fold_left]. by rewrite IH.
Qed.

Lemma Counter_cons x l :
  Py.Counter (x :: l) = (x, 1 + occurrences x l) :: Py.Counter (without x l).
Proof. unfold Py.Counter. cbn [fold_left Py.counter_incr]. apply Counter_from. Qed.

Lemma without_length x l : length (without x l) <= length l.
Proof.
  induction l as [|y l IH]; cbn [without List.filter length]; [lia|].
  destruct (negb (String.eqb x y)); cbn [length]; fold (without x l); lia.
Qed.

(** An element of [without x l] stands in [l] behind elements that are
    [x] or stand before it in [without x l]. *)
Lemma without_split x l pre' k post' :
  without x l = pre' ++ k :: post' ->
  k <> x /\
  exists pre post, l = pre ++ k :: post /\
    forall d, d ∈ pre -> d = x \/ d ∈ pre'.
Proof.
  revert pre'. induction l as [|y l IH]; intros pre'; cbn [without List.filter].
  - intros H. by destruct pre'.
  - fold (without x l). destruct (String.eqb_spec x y) as [<-|Hne]; cbn [negb].
    + intros H. destruct (IH _ H) as (Hk & pre & post & -> & Hpre).
      split; [exact Hk|]. exists (x :: pre), post. split; [reflexivity|].
      intros d. rewrite elem_of_cons. intros [?|?]; auto.
    + destruct pre' as [|p pre'].
      * intros [= -> Hrest]. split; [congruence|].
        exists [], l. split; [reflexivity|]. intros d Hd. by apply elem_of_nil in Hd.
      * intros [= -> Hrest]. destruct (IH _ Hrest) as (Hk & pre & post & -> & Hpre).
        split; [exact Hk|]. exists (p :: pre), post. split; [reflexivity|].
        intros d. rewrite !elem_of_cons. intros [?|Hd]; [auto|].
        destruct (Hpre d Hd); auto.
Qed.

Lemma Counter_first_seen l : forall c1 k n c2,
  Py.Counter l = c1 ++ (k, n) :: c2 ->
  exists pre post,
    l = pre ++ k :: post /\ (k ∉ pre) /\ forall d, d ∈ pre -> d ∈ map fst c1.
Proof.
  induction l as [l IH] using (well_founded_induction (well_founded_ltof _ (@length string))).
  unfold ltof in IH. intros c1 k n c2. destruct l as [|x l].
  - intros H. by destruct c1.
  - rewrite Counter_cons. destruct c1 as [|p c1].
    + intros [= <- _ _]. exists [], l. split; [reflexivity|].
      split; [apply not_elem_of_nil|]. intros d Hd. by apply elem_of_nil in Hd.
    + intros [= <- Hrest].
      assert (Hlt : length (without x l) < length (x :: l)).
      { cbn [length]. pose proof (without_length x l). lia. }
      destruct (IH _ Hlt _ _ _ _ Hrest) as (pre' & post' & Hsplit & Hk & Hpre').
      destruct (without_split x l pre' k post' Hsplit) as (Hkx & pre & post & -> & Hpre).
      exists (x :: pre), post. split; [reflexivity|]. split.
      * rewrite not_elem_of_cons. split; [exact Hkx|].
        intros Hin. destruct (Hpre k Hin); [contradiction|]. contradiction.
      * intros d. cbn [map fst]. rewrite !elem_of_cons. intros [->|Hd]; [auto|].
        destruct (Hpre d Hd) as [->|Hd']; auto.
Qed.

Lemma elem_of_map_fst_inv (k : string) (c : list (string * nat)) :
  k ∈ map fst c -> exists n, (k, n) ∈ c.
Proof.
  induction c as [|[k0 n0] c IH]; cbn [map fst].
  - intros H. by apply elem_of_nil in H.
  - rewrite elem_of_cons. intros [->|H].
    + exists n0. apply list_elem_of_here.
    + destruct (IH H) as [n Hn]. exists n. by apply list_elem_of_further.
Qed.

(** X12. When several dates share the largest count, the one that
    comes first in the list is reported: every date that stands before
    the first occurrence of the reported date occurs less often. *)
Theorem most_active_day_ties_go_to_the_first (dates : list string) (w : world) :
  dates <> [] ->
  exists date n q pre post,
    find_most_active_day dates w
    = (Ok tt,
       say [Line ("[INFO]: Most active day was {} with {} messages sent. "
                  ++ "Thats a message every {:.2f} seconds!")
                 [AStr date; AInt (Z.of_nat n); AFloat q]] w) /\
    dates = pre ++ date :: post /\ (date ∉ pre) /\
    n = occurrences date dates /\
    (forall d, d ∈ pre -> occurrences d dates < n).
Proof.
  intros Hne. unfold find_most_active_day.
  destruct (Py.Counter dates) as [|first others] eqn:E.
  { pose proof (sum_counts_Counter dates) as H. rewrite E in H.
    destruct dates; [contradiction|discriminate]. }
  destruct (max_by_value_first first others) as (before & after & Heq & Hb & _).
  destruct (Py.max_by_value first others) as [date n] eqn:Emax. cbn [fst snd] in *.
  rewrite Heq in E.
  destruct (Counter_first_seen dates _ _ _ _ E) as (pre & post & Hsplit & Hfirst & Hpre).
  assert (Hin : (date, n) ∈ Py.Counter dates).
  { rewrite E. apply elem_of_app. right. apply list_elem_of_here. }
  assert (Hn : 0 < n).
  { apply (count_of_elem _ _ _ (Counter_ok dates)) in Hin. lia. }
  apply Counter_elem in Hin as [_ Hocc].
  exists date, n, (Qred (inject_Z 86400 / inject_Z (Z.of_nat n))), pre, post.
  split; [|split; [exact Hsplit|split; [exact Hfirst|split; [exact Hocc|]]]].
  - unfold bind, lift. rewrite (true_div_pos _ _ Hn). reflexivity.
  - intros d Hd. destruct (elem_of_map_fst_inv d before (Hpre d Hd)) as [m Hm].
    assert (Hm' : (d, m) ∈ Py.Counter dates).
    { rewrite E. apply elem_of_app. by left. }
    apply Counter_elem in Hm' as [_ ->].
    rewrite Forall_forall in Hb. apply Hb in Hm. exact Hm.
Qed.

Lemma most_active_day_ties_go_to_the_first_sample :
  exists date n q pre post,
    find_most_active_day ["14/03/23"; "15/03/23"; "15/03/23"; "14/03/23"] Sample.world
    = (Ok tt,
       say [Line ("[INFO]: Most active day was {} with {} messages sent. "
                  ++ "Thats a message every {:.2f} seconds!")
                 [AStr date; AInt (Z.of_nat n); AFloat q]] Sample.world) /\
    ["14/03/23"; "15/03/23"; "15/03/23"; "14/03/23"] = pre ++ date :: post /\ (date ∉ pre) /\
    n = occurrences date ["14/03/23"; "15/03/23"; "15/03/23"; "14/03/23"] /\
    (forall d, d ∈ pre ->
       occurrences d ["14/03/23"; "15/03/23"; "15/03/23"; "14/03/23"] < n).
Proof.
  apply (most_active_day_ties_go_to_the_first
           ["14/03/23"; "15/03/23"; "15/03/23"; "14/03/23"] Sample.world).
  discriminate.
Defined.

(** ** The hour buckets *)

Lemma leb_trans s1 s2 s3 :
  String.leb s1 s2 = true -> String.leb s2 s3 = true -> String.leb s1 s3 = true.
Proof.
  unfold String.leb.
  destruct (String.compare s1 s2) eqn:E12; [| |discriminate]; intros _.
  - by apply String.compare_eq_iff in E12 as ->.
  - destruct (String.compare s2 s3) eqn:E23; [| |discriminate]; intros _.
    + apply String.compare_eq_iff in E23 as <-. by rewrite E12.
    + by rewrite (compare_lt_trans _ _ _ E12 E23).
Qed.

(** Cutting two strings after [n] characters keeps their order. *)
Lemma take_str_leb n : forall s t,
  String.leb s t = true -> String.leb (Py.take_str n s) (Py.take_str n t) = true.
Proof.
  unfold String.leb. induction n as [|n IH]; intros s t; [by destruct s, t|].
  destruct s as [|a s], t as [|b t]; cbn [Py.take_str String.compare]; try done.
  destruct (Ascii.compare a b); [apply IH|done..].
Qed.

Lemma group_by_hour_shape times :
  group_by_hour times
  = (map (fun kg => length (snd kg))
         (Py.groupby (Py.take_str 2) (Py.sorted String.leb times)),
     map fst (Py.groupby (Py.take_str 2) (Py.sorted String.leb times))).
Proof.
  unfold group_by_hour.
  generalize (Py.groupby (Py.take_str 2) (Py.sorted String.leb times)). intros gs.
  enough (H : forall a b,
            fold_left
              (fun '(msgs_per_hour, hours) '(key, group) =>
                 (msgs_per_hour ++ [length group], hours ++ [key])) gs (a, b)
            = (a ++ map (fun kg => length (snd kg)) gs, b ++ map fst gs)) by apply H.
  induction gs as [|[k g] gs IH]; intros a b; cbn [fold_left map fst snd].
  - by rewrite !app_nil_r.
  - by rewrite IH, <- !app_assoc.
Qed.

Section Groups.

Context {A : Type} (key : A -> string).

Lemma groupby_concat l : concat (map snd (Py.groupby key l)) = l.
Proof.
  induction l as [|x l IH]; cbn [Py.groupby]; [reflexivity|].
  destruct (Py.groupby key l) as [|[k g] rest]; cbn [map snd concat] in *.
  - by rewrite <- IH.
  - destruct (String.eqb (key x) k); cbn [map snd concat]; by rewrite <- IH.
Qed.

Lemma groupby_groups l :
  Forall (fun kg => snd kg <> [] /\ Forall (fun x => key x = fst kg) (snd kg))
         (Py.groupby key l).
Proof.
  induction l as [|x l IH]; cbn [Py.groupby]; [constructor|].
  destruct (Py.groupby key l) as [|[k g] rest].
  - repeat constructor. discriminate.
  - apply Forall_cons in IH as [[Hg Hk] Hrest]. cbn [fst snd] in *.
    destruct (String.eqb_spec (key x) k) as [Heq|Hne].
    + constructor; [|exact Hrest]. cbn [fst snd]. split; [discriminate|by constructor].
    + constructor; [|by constructor]. cbn [fst snd]. split; [discriminate|by repeat constructor].
Qed.

(** The first key of the groups is the key of the first element. *)
Lemma groupby_head x l : exists g rest, Py.groupby key (x :: l) = (key x, g) :: rest.
Proof.
  cbn [Py.groupby]. destruct (Py.groupby key l) as [|[k g] rest]; [eauto|].
  destruct (String.eqb_spec (key x) k) as [->|]; eauto.
Qed.

Lemma groupby_ascending l :
  StronglySorted (fun a b => String.leb (key a) (key b) = true) l ->
  StronglySorted (fun a b => String.ltb a b = true) (map fst (Py.groupby key l)).
Proof.
  induction l as [|x l IH]; intros Hl; [constructor|].
  apply StronglySorted_inv in Hl as [Hl Hx]. specialize (IH Hl).
  cbn [Py.groupby]. destruct l as [|y l]; [repeat constructor|].
  destruct (groupby_head y l) as (g & rest & E). rewrite E in *.
  cbn [map fst] in IH. apply StronglySorted_inv in IH as [IHrest IHy].
  apply Forall_cons in Hx as [Hxy _].
  destruct (String.eqb_spec (key x) (key y)) as [Heq|Hne]; cbn [map fst].
  - by constructor.
  - assert (Hlt : String.compare (key x) (key y) = Lt).
    { unfold String.leb in Hxy.
      destruct (String.compare (key x) (key y)) eqn:Ec; [|done|discriminate].
      by apply String.compare_eq_iff in Ec. }
    constructor; [by constructor|].
    constructor; [unfold String.ltb; by rewrite Hlt|].
    eapply Forall_impl; [exact IHy|]. intros k Hk. unfold String.ltb in *.
    destruct (String.compare (key y) k) eqn:Ek; try discriminate.
    by rewrite (compare_lt_trans _ _ _ Hlt Ek).
Qed.

Lemma groupby_keys l k :
  k ∈ map fst (Py.groupby key l) <-> exists x, x ∈ l /\ key x = k.
Proof.
  induction l as [|x l IH]; cbn [Py.groupby].
  - cbn [map]. split; [intros H; by apply elem_of_nil in H|].
    intros (x & Hx & _). by apply elem_of_nil in Hx.
  - assert (Hrhs : (exists y, y ∈ x :: l /\ key y = k)
                   <-> key x = k \/ k ∈ map fst (Py.groupby key l)).
    { rewrite IH. split.
      - intros (y & Hy & Hk). apply elem_of_cons in Hy as [->|Hy]; eauto.
      - intros [Hk|(y & Hy & Hk)].
        + exists x. split; [apply list_elem_of_here|exact Hk].
        + exists y. split; [by apply list_elem_of_further|exact Hk]. }
    rewrite Hrhs. clear Hrhs IH.
    destruct (Py.groupby key l) as [|[k0 g] rest]; cbn [map fst].
    + rewrite list_elem_of_singleton. split; [auto|]. intros [?|H]; [done|].
      by apply elem_of_nil in H.
    + destruct (String.eqb_spec (key x) k0) as [Heq|Hne]; cbn [map fst].
      * rewrite elem_of_cons. split; [auto|]. intros [<-|?]; auto.
      * rewrite !elem_of_cons. split; [intros [->|?]; auto|]. intros [<-|?]; auto.
Qed.

End Groups.

Lemma count_hour_app h l1 l2 : count_hour h (l1 ++ l2) = count_hour h l1 + count_hour h l2.
Proof. induction l1 as [|t l1 IH]; cbn [app count_hour]; [reflexivity|]. rewrite IH. lia. Qed.

Lemma count_hour_perm h l1 l2 : l1 ≡ₚ l2 -> count_hour h l1 = count_hour h l2.
Proof. induction 1; cbn [count_hour]; lia. Qed.

Lemma count_hour_same h g :
  Forall (fun t => Py.take_str 2 t = h) g -> count_hour h g = length g.
Proof.
  induction 1 as [|t g Ht _ IH]; cbn [count_hour length]; [reflexivity|].
  rewrite IH. by destruct (String.eqb_spec (Py.take_str 2 t) h).
Qed.

Lemma count_hour_other h k g :
  k <> h -> Forall (fun t => Py.take_str 2 t = k) g -> count_hour h g = 0.
Proof.
  intros Hne. induction 1 as [|t g Ht _ IH]; cbn [count_hour]; [reflexivity|].
  rewrite IH. destruct (String.eqb_spec (Py.take_str 2 t) h); [congruence|reflexivity].
Qed.

Lemma ltb_irrefl s : String.ltb s s = false.
Proof. unfold String.ltb. by rewrite compare_refl. Qed.

(** Groups with ascending keys: the size of a group is the number of
    elements with its key. *)
Lemma groups_count (gs : list (string * list string)) :
  StronglySorted (fun a b => String.ltb a b = true) (map fst gs) ->
  Forall (fun kg => snd kg <> [] /\ Forall (fun t => Py.take_str 2 t = fst kg) (snd kg)) gs ->
  map (fun kg => length (snd kg)) gs
  = map (fun h => count_hour h (concat (map snd gs))) (map fst gs).
Proof.
  induction gs as [|[k g] gs IH]; cbn [map fst snd concat]; [reflexivity|].
  intros Hs Hg. apply StronglySorted_inv in Hs as [Hs Hk].
  apply Forall_cons in Hg as [[_ Hkg] Hg]. cbn [fst snd] in Hkg.
  assert (Hrest : count_hour k (concat (map snd gs)) = 0).
  { clear IH Hs. induction gs as [|[k' g'] gs IH']; cbn [map snd concat]; [reflexivity|].
    cbn [map fst] in Hk. apply Forall_cons in Hk as [Hk' Hk].
    apply Forall_cons in Hg as [[_ Hg'] Hg]. cbn [fst snd] in Hg'.
    rewrite count_hour_app, (IH' Hk Hg), (count_hour_other k k' g'); [reflexivity| |exact Hg'].
    intros ->. by rewrite ltb_irrefl in Hk'. }
  f_equal.
  - by rewrite count_hour_app, Hrest, (count_hour_same k g Hkg), Nat.add_0_r.
  - rewrite (IH Hs Hg). apply map_ext_in. intros h Hh.
    rewrite count_hour_app, (count_hour_other h k g); [reflexivity| |exact Hkg].
    intros ->. rewrite Forall_forall in Hk.
    apply list_elem_of_In, Hk in Hh. by rewrite ltb_irrefl in Hh.
Qed.

Lemma count_hour_pos h l : 0 < count_hour h l <-> exists t, t ∈ l /\ Py.take_str 2 t = h.
Proof.
  induction l as [|x l IH]; cbn [count_hour].
  - split; [lia|]. intros (t & Ht & _). by apply elem_of_nil in Ht.
  - destruct (String.eqb_spec (Py.take_str 2 x) h) as [Heq|Hne].
    + split; [|lia]. intros _. exists x. split; [apply list_elem_of_here|exact Heq].
    + rewrite Nat.add_0_l, IH. split.
      * intros (t & Ht & Hk). exists t. split; [by apply list_elem_of_further|exact Hk].
      * intros (t & Ht & Hk). apply elem_of_cons in Ht as [->|Ht]; [contradiction|eauto].
Qed.

Lemma sorted_times_by_hour times :
  StronglySorted (fun a b => String.leb (Py.take_str 2 a) (Py.take_str 2 b) = true)
                 (Py.sorted String.leb times).
Proof.
  pose proof (sorted_sorted String.leb String.leb_total leb_trans times) as Hs.
  induction Hs as [|t l Hl IH Ht]; constructor; [exact IH|].
  eapply Forall_impl; [exact Ht|]. intros u. apply take_str_leb.
Qed.

(** X13. The hour buckets of the chart: the keys are the distinct
    two-character prefixes of the times, in strictly ascending order,
    and the number given for a key is the number of times that begin
    with it. *)
Theorem hour_buckets_count_the_times (times : list string) :
  exists msgs_per_hour hours,
    group_by_hour times = (msgs_per_hour, hours) /\
    StronglySorted (fun a b => String.ltb a b = true) hours /\
    (forall h, h ∈ hours <-> exists t, t ∈ times /\ Py.take_str 2 t = h) /\
    msgs_per_hour = map (fun h => count_hour h times) hours.
Proof.
  rewrite group_by_hour_shape.
  pose proof (sorted_perm String.leb times) as Hperm.
  pose proof (groupby_ascending (Py.take_str 2) _ (sorted_times_by_hour times)) as Hasc.
  pose proof (groupby_groups (Py.take_str 2) (Py.sorted String.leb times)) as Hgroups.
  pose proof (groups_count _ Hasc Hgroups) as Hcount.
  rewrite (groupby_concat (Py.take_str 2) (Py.sorted String.leb times)) in Hcount.
  eexists _, _. split; [reflexivity|]. split; [exact Hasc|]. split.
  - intros h. rewrite groupby_keys. split; intros (t & Ht & Hk); exists t.
    + by rewrite <- Hperm.
    + by rewrite Hperm.
  - rewrite Hcount. apply map_ext. intros h. by apply count_hour_perm.
Qed.

Lemma group_by_hour_counts times :
  fst (group_by_hour times)
  = map (fun h => count_hour h times) (snd (group_by_hour times)).
Proof.
  rewrite group_by_hour_shape. cbn [fst snd].
  pose proof (groupby_ascending (Py.take_str 2) _ (sorted_times_by_hour times)) as Hasc.
  pose proof (groupby_groups (Py.take_str 2) (Py.sorted String.leb times)) as Hgroups.
  rewrite (groups_count _ Hasc Hgroups), groupby_concat.
  apply map_ext. intros h. apply count_hour_perm, sorted_perm.
Qed.

(** X14. With the four cache files in place the script prints the four
    lines of the loads and asks [pyplot] for one chart, made from the
    cached times alone: it plots the number of times of each hour key
    against the positions 0, 1, ..., puts the hour keys at these
    positions as ticks, calls [plt.xlim] with 0 and the number of keys
    less one, and gives the fixed labels and title. No file is written,
    and the document is not read. *)
Theorem script_charts_the_cached_times (P : platform) (w : world)
    (b0 b1 b2 b3 : list byte) (senders msgs dates times : list string) :
  files w !! "pickles/senders.pickle" = Some b0 -> pickle_loads P b0 = Ok senders ->
  files w !! "pickles/messages.pickle" = Some b1 -> pickle_loads P b1 = Ok msgs ->
  files w !! "pickles/dates.pickle" = Some b2 -> pickle_loads P b2 = Ok dates ->
  files w !! "pickles/times.pickle" = Some b3 -> pickle_loads P b3 = Ok times ->
  exists hours,
    hours = snd (group_by_hour times) /\
    main P w =
    (Ok tt,
     World (files w) (unwritable w)
       (stdout w ++ [Line "[INFO]: {} loaded" [AStr "pickles/senders.pickle"];
                     Line "[INFO]: {} loaded" [AStr "pickles/messages.pickle"];
                     Line "[INFO]: {} loaded" [AStr "pickles/dates.pickle"];
                     Line "[INFO]: {} loaded" [AStr "pickles/times.pickle"]])
       (shown w ++ [Figure (seq 0 (length hours))
                           (map (fun h => count_hour h times) hours)
                           (seq 0 (length hours), hours)
                           (0%Z, (Z.of_nat (length hours) - 1)%Z)
                           "Hour" "# Messages" "Messages/Hour"])).
Proof.
  intros H0 L0 H1 L1 H2 L2 H3 L3. eexists. split; [reflexivity|].
  unfold main. unfold bind at 1.
  rewrite (init_cache_run P "171.html" w b0 b1 b2 b3 senders msgs dates times
             H0 L0 H1 L1 H2 L2 H3 L3).
  cbn [data]. unfold bind, lift, getitem. cbn [lookup list_lookup].
  unfold plot_total_msgs_per_hour.
  pose proof (group_by_hour_counts times) as Hc.
  destruct (group_by_hour times) as [msgs_per_hour hours]. cbn [fst snd] in *.
  subst msgs_per_hour. rewrite length_map. reflexivity.
Qed.

Lemma script_charts_the_cached_times_sample :
  exists hours,
    hours = snd (group_by_hour ["09:45"; "22:05"; "09:15"]) /\
    main Sample.platform Sample2.full_cache =
    (Ok tt,
     World (files Sample2.full_cache) (unwritable Sample2.full_cache)
       (stdout Sample2.full_cache
        ++ [Line "[INFO]: {} loaded" [AStr "pickles/senders.pickle"];
            Line "[INFO]: {} loaded" [AStr "pickles/messages.pickle"];
            Line "[INFO]: {} loaded" [AStr "pickles/dates.pickle"];
            Line "[INFO]: {} loaded" [AStr "pickles/times.pickle"]])
       (shown Sample2.full_cache
        ++ [Figure (seq 0 (length hours))
                   (map (fun h => count_hour h ["09:45"; "22:05"; "09:15"]) hours)
                   (seq 0 (length hours), hours)
                   (0%Z, (Z.of_nat (length hours) - 1)%Z)
                   "Hour" "# Messages" "Messages/Hour"])).
Proof.
  apply (script_charts_the_cached_times Sample.platform Sample2.full_cache
           (Framing.dumps ["Alice"; "Bob"; "Alice"])
           (Framing.dumps ["see you  then"; "ok"; "None"])
           (Framing.dumps ["04/04/17"; "03/04/17"; "03/04/17"])
           (Framing.dumps ["09:45"; "22:05"; "09:15"])
           ["Alice"; "Bob"; "Alice"] ["see you  then"; "ok"; "None"]
           ["04/04/17"; "03/04/17"; "03/04/17"] ["09:45"; "22:05"; "09:15"]);
    reflexivity.
Defined.

(** ** More on the averages per unit of time *)

Module IntervalFacts.

Import datetime dateutil DateFacts.
Local Open Scope Z_scope.

Lemma lt_asym a b : lt a b = true -> lt b a = false.
Proof.
  intros H. destruct (lt b a) eqn:E; [exfalso|reflexivity].
  unfold lt in *. bool_to_prop. lia.
Qed.

(** Two moments of one calendar month are zero months apart. *)
Lemma relativedelta_same_month dt1 dt2 :
  valid dt1 -> valid dt2 -> year dt1 = year dt2 -> month dt1 = month dt2 ->
  relativedelta dt1 dt2 = Ok (Delta 0 0).
Proof.
  intros H1 H2 Hy Hm. unfold relativedelta. rewrite Hy, Hm, !Z.sub_diag.
  change (set_months (0 * 12 + 0)) with (Delta 0 0).
  assert (Hadd : add (Delta 0 0) dt2 = Ok dt2).
  { unfold add. cbn [years months]. change (0 =? 0) with true. cbv iota.
    rewrite Z.add_0_r. destruct H2 as (? & ? & ? & ? & ?).
    rewrite Z.min_r by lia. destruct dt2 as [y m d hh mm]. cbn [year month day hour minute] in *.
    apply make_ok. unfold valid. cbn [year month day hour minute]. lia. }
  rewrite Hadd. cbn [rbind].
  destruct (lt dt1 dt2) eqn:Hlt; unfold rounds; cbn [adjust].
  - unfold gt. by rewrite (lt_asym _ _ Hlt).
  - by rewrite Hlt.
Qed.

(** Dates read with the date format differ by whole days. *)
Lemma sub_days_midnight a b :
  hour a = 0 -> minute a = 0 -> hour b = 0 -> minute b = 0 ->
  sub_days a b = toordinal a - toordinal b.
Proof.
  intros Ha Ma Hb Mb. unfold sub_days, minutes_since_epoch. rewrite Ha, Ma, Hb, Mb.
  replace ((toordinal a * 24 + 0) * 60 + 0 - ((toordinal b * 24 + 0) * 60 + 0))
    with ((toordinal a - toordinal b) * 1440) by lia.
  by rewrite Z.div_mul.
Qed.

Lemma week_interval days :
  let k := Qceiling (inject_Z days / 7) in 7 * (k - 1) < days <= 7 * k.
Proof.
  cbv zeta. unfold Qceiling, Qfloor, Qdiv, Qmult, Qinv, Qopp, inject_Z. simpl.
  rewrite !Z.mul_1_r. Z.to_euclidean_division_equations. lia.
Qed.

End IntervalFacts.

(** X15. A conversation that begins and ends in one calendar month
    cannot be averaged per month or per year: both intervals are zero,
    and the division raises [ZeroDivisionError]. *)
Theorem one_month_has_no_monthly_average (P : platform) (self : FacebookConversationAnalysis)
    (dates : list string) (unit_time : string) (w : world)
    (oldest newest : string) (first_date last_date : datetime.t) :
  unit_time = "month" \/ unit_time = "year" ->
  last dates = Some oldest -> dates !! 0 = Some newest ->
  datetime.strptime P oldest (date_format self) = Ok first_date ->
  datetime.strptime P newest (date_format self) = Ok last_date ->
  datetime.year first_date = datetime.year last_date ->
  datetime.month first_date = datetime.month last_date ->
  calculate_average_messages_per_unit_time P self dates unit_time w
  = (Raise ZeroDivisionError, w).
Proof.
  intros Hunit Hlast Hhead Hfirst Hnewest Hy Hm.
  destruct (unit_time_prologue P self dates unit_time w _ _ _ _ Hlast Hhead Hfirst Hnewest)
    as (delta_du & Hdu & ->).
  rewrite (IntervalFacts.relativedelta_same_month last_date first_date) in Hdu;
    [|eapply DateFacts.strptime_valid; eauto..|congruence|congruence].
  injection Hdu as <-.
  destruct Hunit as [-> | ->]; reflexivity.
Qed.

Lemma one_month_has_no_monthly_average_sample :
  calculate_average_messages_per_unit_time Sample.platform Sample.self
    ["04/04/17"; "03/04/17"; "03/04/17"] "month" Sample.world
  = (Raise ZeroDivisionError, Sample.world).
Proof.
  apply (one_month_has_no_monthly_average Sample.platform Sample.self
           ["04/04/17"; "03/04/17"; "03/04/17"] "month" Sample.world
           "03/04/17" "04/04/17"
           (datetime.mk 2017 4 3 0 0) (datetime.mk 2017 4 4 0 0));
    try reflexivity.
  by left.
Defined.

(** X16. The average per week divides by the days from the oldest to
    the newest date, in weeks rounded up: with [days] > 0 days between
    them the divisor [k] is positive and [7 (k - 1) < days <= 7 k]. *)
Theorem weekly_average_rounds_weeks_up (P : platform) (self : FacebookConversationAnalysis)
    (dates : list string) (w : world)
    (oldest newest : string) (first_date last_date : datetime.t) :
  last dates = Some oldest -> dates !! 0 = Some newest ->
  datetime.strptime P oldest (date_format self) = Ok first_date ->
  datetime.strptime P newest (date_format self) = Ok last_date ->
  (0 < datetime.sub_days last_date first_date)%Z ->
  exists k : Z,
    (0 < k /\ 7 * (k - 1) < datetime.sub_days last_date first_date <= 7 * k)%Z /\
    calculate_average_messages_per_unit_time P self dates "week" w
    = (Ok tt,
       say [Line "[INFO]: Average Messages/{}: {:.2f}"
                 [AStr "Week";
                  AFloat (Qred (inject_Z (Z.of_nat (total_msgs self)) / inject_Z k))]] w).
Proof.
  intros Hlast Hhead Hfirst Hnewest Hdays.
  destruct (unit_time_prologue P self dates "week" w _ _ _ _ Hlast Hhead Hfirst Hnewest)
    as (delta_du & _ & ->).
  pose proof (IntervalFacts.week_interval (datetime.sub_days last_date first_date)) as Hk.
  cbv zeta in Hk.
  exists (Qceiling (inject_Z (datetime.sub_days last_date first_date) / 7)).
  split; [lia|].
  change (interval_of "week" ?d ?r) with (Qceiling (inject_Z d / 7)).
  cbn [existsb String.eqb Ascii.eqb Bool.eqb negb orb].
  unfold bind, lift, true_div.
  destruct (Z.eqb_spec (Qceiling (inject_Z (datetime.sub_days last_date first_date) / 7)) 0);
    [lia|reflexivity].
Qed.

Lemma weekly_average_rounds_weeks_up_sample :
  exists k : Z,
    (0 < k /\ 7 * (k - 1)
              < datetime.sub_days (datetime.mk 2023 1 20 0 0) (datetime.mk 2023 1 10 0 0)
              <= 7 * k)%Z /\
    calculate_average_messages_per_unit_time Sample.platform Sample.self
      ["20/01/23"; "10/01/23"] "week" Sample.world
    = (Ok tt,
       say [Line "[INFO]: Average Messages/{}: {:.2f}"
                 [AStr "Week";
                  AFloat (Qred (inject_Z (Z.of_nat (total_msgs Sample.self)) / inject_Z k))]]
           Sample.world).
Proof.
  apply (weekly_average_rounds_weeks_up Sample.platform Sample.self
           ["20/01/23"; "10/01/23"] Sample.world "10/01/23" "20/01/23");
    reflexivity.
Defined.

(** X17. The list of dates is taken to begin with the newest date.
    Given the other way round, the average per day comes out with the
    opposite sign, and nothing reports it. *)
Theorem oldest_first_negates_daily_average (P : platform)
    (self : FacebookConversationAnalysis) (dates : list string) (w : world)
    (oldest newest : string) (first_date last_date : datetime.t) :
  date_format self = "%d/%m/%y" ->
  last dates = Some oldest -> dates !! 0 = Some newest ->
  datetime.strptime P oldest "%d/%m/%y" = Ok first_date ->
  datetime.strptime P newest "%d/%m/%y" = Ok last_date ->
  datetime.toordinal first_date <> datetime.toordinal last_date ->
  exists q q',
    calculate_average_messages_per_unit_time P self dates "day" w
    = (Ok tt, say [Line "[INFO]: Average Messages/{}: {:.2f}" [AStr "Day"; AFloat q]] w) /\
    calculate_average_messages_per_unit_time P self (reverse dates) "day" w
    = (Ok tt, say [Line "[INFO]: Average Messages/{}: {:.2f}" [AStr "Day"; AFloat q']] w) /\
    (q' == - q)%Q.
Proof.
  intros Hfmt Hlast Hhead Hfirst Hnewest Hdiff.
  destruct (DateFacts.strptime_date_midnight _ _ _ Hfirst) as [H1 M1].
  destruct (DateFacts.strptime_date_midnight _ _ _ Hnewest) as [H2 M2].
  rewrite <- Hfmt in Hfirst, Hnewest.
  assert (Hlast' : last (reverse dates) = Some newest).
  { by rewrite last_reverse, head_lookup. }
  assert (Hhead' : reverse dates !! 0 = Some oldest).
  { by rewrite <- head_lookup, head_reverse. }
  destruct (unit_time_prologue P self dates "day" w _ _ _ _ Hlast Hhead Hfirst Hnewest)
    as (delta_du & _ & ->).
  destruct (unit_time_prologue P self (reverse dates) "day" w _ _ _ _
              Hlast' Hhead' Hnewest Hfirst) as (delta_du' & _ & ->).
  cbn [existsb String.eqb Ascii.eqb Bool.eqb negb orb].
  change (interval_of "day" ?d ?r) with d.
  rewrite (IntervalFacts.sub_days_midnight last_date first_date H2 M2 H1 M1).
  rewrite (IntervalFacts.sub_days_midnight first_date last_date H1 M1 H2 M2).
  set (days := (datetime.toordinal last_date - datetime.toordinal first_date)%Z).
  replace (datetime.toordinal first_date - datetime.toordinal last_date)%Z
    with (- days)%Z by (unfold days; lia).
  assert (Hdays : days <> 0%Z) by (unfold days; lia).
  unfold bind, lift, true_div.
  destruct (Z.eqb_spec days 0) as [|_]; [contradiction|].
  destruct (Z.eqb_spec (- days) 0) as [|_]; [lia|].
  eexists _, _. split; [reflexivity|]. split; [reflexivity|].
  rewrite !Qred_correct, inject_Z_opp. field.
  unfold Qeq, inject_Z; simpl. lia.
Qed.

Lemma oldest_first_negates_daily_average_sample :
  exists q q',
    calculate_average_messages_per_unit_time Sample.platform Sample.self
      ["20/01/23"; "15/01/23"; "10/01/23"] "day" Sample.world
    = (Ok tt, say [Line "[INFO]: Average Messages/{}: {:.2f}" [AStr "Day"; AFloat q]]
                  Sample.world) /\
    calculate_average_messages_per_unit_time Sample.platform Sample.self
      (reverse ["20/01/23"; "15/01/23"; "10/01/23"]) "day" Sample.world
    = (Ok tt, say [Line "[INFO]: Average Messages/{}: {:.2f}" [AStr "Day"; AFloat q']]
                  Sample.world) /\
    (q' == - q)%Q.
Proof.
  apply (oldest_first_negates_daily_average Sample.platform Sample.self
           ["20/01/23"; "15/01/23"; "10/01/23"] Sample.world "10/01/23" "20/01/23"
           (datetime.mk 2023 1 10 0 0) (datetime.mk 2023 1 20 0 0));
    try reflexivity.
  vm_compute. discriminate.
Defined.

(** X19. On a dataset without messages every statistic raises and
    prints nothing: the per-user report and the most active day with
    [ValueError], the words per message with [ZeroDivisionError], the
    average per unit of time, for any unit, with [IndexError]. *)
Theorem empty_dataset_has_no_statistics (P : platform) (self : FacebookConversationAnalysis)
    (unit_time : string) (w : world) :
  total_msgs self = 0 ->
  calculate_total_messages_per_user self [] w = (Raise ValueError, w) /\
  calculate_average_words_per_message self [] w = (Raise ZeroDivisionError, w) /\
  calculate_average_messages_per_unit_time P self [] unit_time w = (Raise IndexError, w) /\
  find_most_active_day [] w = (Raise ValueError, w).
Proof.
  intros Hz. repeat split.
  unfold calculate_average_words_per_message, bind, lift, true_div. by rewrite Hz.
Qed.

Lemma empty_dataset_has_no_statistics_sample :
  let self := Self "%A, %d %B %Y at %H:%M %Z" "%d/%m/%y" "%H:%M" [[]; []; []; []] 0 in
  calculate_total_messages_per_user self [] Sample.world = (Raise ValueError, Sample.world) /\
  calculate_average_words_per_message self [] Sample.world
  = (Raise ZeroDivisionError, Sample.world) /\
  calculate_average_messages_per_unit_time Sample.platform self [] "day" Sample.world
  = (Raise IndexError, Sample.world) /\
  find_most_active_day [] Sample.world = (Raise ValueError, Sample.world).
Proof.
  apply (empty_dataset_has_no_statistics Sample.platform
           (Self "%A, %d %B %Y at %H:%M %Z" "%d/%m/%y" "%H:%M" [[]; []; []; []] 0)
           "day" Sample.world).
  reflexivity.
Defined.

(** X21. A message element that has no node after it stops the
    extraction of the whole document: the text of a message is taken
    from the next sibling, and there is none. *)
Theorem message_without_sibling_stops_extraction (P : platform)
    (self : FacebookConversationAnalysis) (soup : bs4.node) (chat : bs4.element) :
  chat ∈ message_elements soup -> bs4.next_sibling chat = None ->
  exists e, extract_soup P self soup = Raise e.
Proof.
  intros Hin Hnone.
  assert (Hbad : record_of P self chat = Raise AttributeError).
  { unfold record_of, extract_chat. rewrite Hnone.
    unfold not_none. destruct (bs4.find "user" _); reflexivity. }
  rewrite extract_soup_flat.
  destruct (for_each _ _ _) as [acc|e] eqn:E; [|cbn [rbind]; eauto].
  apply loop_good_only in E. rewrite Forall_forall in E.
  apply E in Hin as [r Hr]. congruence.
Qed.

Lemma message_without_sibling_stops_extraction_sample :
  exists e, extract_soup Sample.platform Sample.self Sample2.bad_soup = Raise e.
Proof.
  apply (message_without_sibling_stops_extraction Sample.platform Sample.self Sample2.bad_soup
           (bs4.Element (Sample.message "Carol" "no date") None)).
  - vm_compute. do 2 apply list_elem_of_further. apply list_elem_of_here.
  - reflexivity.
Defined.

(** ** Dates written and read back *)

Module RoundTrip.

Import datetime.
Local Open Scope Z_scope.

(** Every day of the years 1969 to 2068, checked one by one. *)
Lemma window_checked (P : platform) :
  forallb (fun y =>
    forallb (fun m =>
      forallb (fun d => implb (d <=? days_in_month y m) (reads_back P y m d))
              (Zrange 1 31))
      (Zrange 1 12))
    (Zrange 1969 100) = true.
Proof. vm_compute. reflexivity. Qed.

Lemma in_Zrange lo n x : lo <= x < lo + Z.of_nat n -> In x (Zrange lo n).
Proof.
  intros Hx. unfold Zrange. apply in_map_iff. exists (Z.to_nat (x - lo)).
  split; [lia|]. apply in_seq. lia.
Qed.

Lemma window_year_range y : 1969 <= window_year y <= 2068.
Proof. unfold window_year. pose proof (Z.mod_pos_bound (y - 1969) 100). lia. Qed.

Lemma window_year_digits y : window_year y mod 100 = y mod 100.
Proof. unfold window_year. Z.to_euclidean_division_equations. lia. Qed.

Lemma window_year_leap y : is_leap y = true -> is_leap (window_year y) = true.
Proof.
  unfold is_leap, window_year.
  rewrite !andb_true_iff, !orb_true_iff, !negb_true_iff, !Z.eqb_eq, !Z.eqb_neq.
  Z.to_euclidean_division_equations. lia.
Qed.

Lemma window_year_days y m : days_in_month y m <= days_in_month (window_year y) m.
Proof.
  unfold days_in_month. destruct (m =? 2); [|lia].
  destruct (is_leap y) eqn:E; [by rewrite (window_year_leap y E)|].
  destruct (is_leap (window_year y)); lia.
Qed.

Lemma strftime_date d :
  strftime d "%d/%m/%y"
  = (two_digits (day d) ++ "/" ++ two_digits (month d) ++ "/"
     ++ two_digits (year d mod 100))%string.
Proof. reflexivity. Qed.

(** Inside the window a written date is read back as it is. *)
Lemma window_read_back (P : platform) y m d :
  1969 <= y <= 2068 -> 1 <= m <= 12 -> 1 <= d <= days_in_month y m ->
  strptime P (strftime (mk y m d 0 0) "%d/%m/%y") "%d/%m/%y" = Ok (mk y m d 0 0).
Proof.
  intros Hy Hm Hd.
  pose proof (window_checked P) as Hall.
  pose proof (DateFacts.days_in_month_range y m) as Hrange.
  assert (Hiny : In y (Zrange 1969 100)) by (apply in_Zrange; lia).
  assert (Hinm : In m (Zrange 1 12)) by (apply in_Zrange; lia).
  assert (Hind : In d (Zrange 1 31)) by (apply in_Zrange; lia).
  rewrite forallb_forall in Hall. specialize (Hall y Hiny).
  rewrite forallb_forall in Hall. specialize (Hall m Hinm).
  rewrite forallb_forall in Hall. specialize (Hall d Hind).
  replace (d <=? days_in_month y m) with true in Hall by (symmetry; apply Z.leb_le; lia).
  cbn [implb] in Hall. unfold reads_back in Hall.
  destruct (strptime P _ _) as [r|]; [|discriminate].
  repeat (apply andb_prop in Hall; destruct Hall as [Hall ?]).
  destruct r; cbn [year month day hour minute] in *.
  f_equal. f_equal; lia.
Qed.

(** The text written for a date depends on the last two digits of its
    year only. *)
Lemma strftime_window d :
  strftime d "%d/%m/%y"
  = strftime (mk (window_year (year d)) (month d) (day d) 0 0) "%d/%m/%y".
Proof.
  rewrite !strftime_date. cbn [year month day]. by rewrite window_year_digits.
Qed.

End RoundTrip.


(** X18. A date written with the date format is read back as the same
    day and month of the year between 1969 and 2068 that ends in the same
    two digits: a date of these hundred years comes back unchanged, any
    other date comes back a whole number of centuries away. *)
Theorem written_date_reads_back_within_a_century (P : platform) (d : datetime.t) :
  datetime.valid d ->
  datetime.strptime P (datetime.strftime d "%d/%m/%y") "%d/%m/%y"
  = Ok (datetime.mk (window_year (datetime.year d)) (datetime.month d) (datetime.day d) 0 0).
Proof.
  intros (Hy & Hm & Hd & _).
  rewrite RoundTrip.strftime_window.
  pose proof (RoundTrip.window_year_range (datetime.year d)) as Hwin.
  pose proof (RoundTrip.window_year_days (datetime.year d) (datetime.month d)) as Hdays.
  apply RoundTrip.window_read_back; lia.
Qed.

Lemma written_date_reads_back_within_a_century_sample :
  datetime.strptime Sample.platform
    (datetime.strftime (datetime.mk 1968 12 31 23 59) "%d/%m/%y") "%d/%m/%y"
  = Ok (datetime.mk (window_year 1968) 12 31 0 0).
Proof.
  apply (written_date_reads_back_within_a_century Sample.platform
           (datetime.mk 1968 12 31 23 59)).
  unfold datetime.valid.
  cbn [datetime.year datetime.month datetime.day datetime.hour datetime.minute].
  change (datetime.days_in_month 1968 12) with 31%Z. lia.
Defined.

(** ** From the extraction to the statistics *)

Section Handover.

Context (P : platform) (self : FacebookConversationAnalysis).

(** The date and the time of a record are written from one valid
    moment. *)
Lemma record_of_moment chat u m d t :
  record_of P self chat = Ok ([u], [m], [d], [t]) ->
  exists full_date,
    datetime.valid full_date /\
    d = datetime.strftime full_date (date_format self) /\
    t = datetime.strftime full_date (time_format self).
Proof.
  unfold record_of, extract_chat.
  destruct (not_none (bs4.find "user" _)); simpl; [|discriminate].
  destruct (not_none (bs4.next_sibling chat)); simpl; [|discriminate].
  destruct (not_none (bs4.find "meta" _)); simpl; [|discriminate].
  destruct (not_none (bs4.string_of _)); simpl; [|discriminate].
  destruct (datetime.strptime _ _ _) as [full_date|] eqn:E; simpl; [|discriminate].
  intros [= _ _ <- <-]. exists full_date.
  split; [eapply DateFacts.strptime_valid, E|]. split; reflexivity.
Qed.

(** Every entry of the extracted lists comes from a message element. *)
Lemma extracted_entry soup users msgs dates times i d :
  extract_soup P self soup = Ok [users; msgs; dates; times] ->
  dates !! i = Some d ->
  exists full_date t,
    datetime.valid full_date /\ times !! i = Some t /\
    d = datetime.strftime full_date (date_format self) /\
    t = datetime.strftime full_date (time_format self).
Proof.
  intros Hdata Hd.
  destruct (extract_soup_lengths _ _ _ _ Hdata) as (us & ms & ds & ts & [= <- <- <- <-] & Hlen).
  destruct Hlen as (_ & _ & Hlen & _).
  assert (Hi : i < length (message_elements soup)).
  { rewrite <- Hlen. eapply lookup_lt_Some, Hd. }
  destruct (lookup_lt_is_Some_2 _ _ Hi) as [chat Hchat].
  rewrite extract_soup_flat in Hdata.
  destruct (for_each _ _ _) as [[[[us ms] ds] ts]|] eqn:E; [|discriminate].
  cbn [rbind] in Hdata. injection Hdata as -> -> -> ->.
  destruct (loop_aligned P self _ _ _ _ _ _ _ _ _ E eq_refl eq_refl eq_refl i chat Hchat)
    as (u & m & d' & t & Hrec & _ & _ & Hd' & Ht).
  cbn [length Nat.add] in Hd', Ht. rewrite Hd in Hd'. injection Hd' as <-.
  destruct (record_of_moment _ _ _ _ _ Hrec) as (full_date & Hv & Hdate & Htime).
  exists full_date, t. auto.
Qed.

End Handover.

(** X22. The average per unit of time can always read the dates that
    the extraction has written: on the dates of a document with at
    least one message, and for one of the four units, the call either
    returns or raises [ZeroDivisionError]; it never fails on a date. *)
Theorem extracted_dates_are_readable (P : platform) (self : FacebookConversationAnalysis)
    (soup : bs4.node) (users msgs dates times : list string) (unit_time : string) (w : world) :
  date_format self = "%d/%m/%y" ->
  extract_soup P self soup = Ok [users; msgs; dates; times] ->
  dates <> [] ->
  existsb (String.eqb unit_time) ["day"; "week"; "month"; "year"] = true ->
  (exists lines,
     calculate_average_messages_per_unit_time P self dates unit_time w = (Ok tt, say lines w)) \/
  calculate_average_messages_per_unit_time P self dates unit_time w
  = (Raise ZeroDivisionError, w).
Proof.
  intros Hfmt Hdata Hne Hunit.
  assert (Hends : exists oldest newest, last dates = Some oldest /\ dates !! 0 = Some newest).
  { destruct dates as [|d0 ds]; [contradiction|].
    destruct (last (d0 :: ds)) as [x|] eqn:El; [eauto|].
    apply last_None in El. discriminate. }
  destruct Hends as (oldest & newest & Hlast & Hhead).
  assert (Hparse : forall i d, dates !! i = Some d ->
            exists r, datetime.strptime P d (date_format self) = Ok r).
  { intros i d Hd.
    destruct (extracted_entry P self _ _ _ _ _ _ _ Hdata Hd)
      as (full_date & t & (Hy & Hm & Hdd & _) & _ & -> & _).
    rewrite Hfmt, RoundTrip.strftime_window.
    pose proof (RoundTrip.window_year_range (datetime.year full_date)) as Hwin.
    pose proof (RoundTrip.window_year_days (datetime.year full_date)
                  (datetime.month full_date)) as Hdays.
    eexists. apply RoundTrip.window_read_back; lia. }
  destruct (Hparse 0 newest Hhead) as [last_date Hnewest].
  destruct (Hparse (pred (length dates)) oldest) as [first_date Hfirst].
  { by rewrite <- last_lookup. }
  destruct (unit_time_prologue P self dates unit_time w _ _ _ _ Hlast Hhead Hfirst Hnewest)
    as (delta_du & _ & ->).
  rewrite Hunit. cbn [negb]. unfold bind, lift, true_div, print.
  destruct (Z.eqb _ 0); [by right|left; eauto].
Qed.

Lemma extracted_dates_are_readable_sample :
  (exists lines,
     calculate_average_messages_per_unit_time Sample.platform Sample.self
       ["04/04/17"; "03/04/17"; "03/04/17"] "day" Sample.world
     = (Ok tt, say lines Sample.world)) \/
  calculate_average_messages_per_unit_time Sample.platform Sample.self
    ["04/04/17"; "03/04/17"; "03/04/17"] "day" Sample.world
  = (Raise ZeroDivisionError, Sample.world).
Proof.
  apply (extracted_dates_are_readable Sample.platform Sample.self Sample.soup
           ["Alice"; "Bob"; "Alice"] ["see you  then"; "ok"; "None"]
           ["04/04/17"; "03/04/17"; "03/04/17"] ["09:45"; "22:05"; "09:15"]
           "day" Sample.world);
    try (vm_compute; reflexivity).
  discriminate.
Defined.

(** X23. The chart of extracted times has hour keys only: every key is
    the two-digit form of an hour from 0 to 23. *)
Theorem extracted_times_fall_into_hours (P : platform) (self : FacebookConversationAnalysis)
    (soup : bs4.node) (users msgs dates times : list string) (h : string) :
  time_format self = "%H:%M" ->
  extract_soup P self soup = Ok [users; msgs; dates; times] ->
  h ∈ snd (group_by_hour times) ->
  exists n, (0 <= n <= 23)%Z /\ h = datetime.two_digits n.
Proof.
  intros Hfmt Hdata Hh.
  rewrite group_by_hour_shape in Hh. cbn [snd] in Hh.
  apply groupby_keys in Hh as (t & Ht & <-).
  rewrite sorted_perm in Ht.
  apply list_elem_of_lookup in Ht as [i Hi].
  destruct (extract_soup_lengths _ _ _ _ Hdata) as (us & ms & ds & ts & [= <- <- <- <-] & Hlen).
  destruct Hlen as (_ & _ & Hld & Hlt).
  assert (Hid : i < length dates).
  { rewrite Hld, <- Hlt. eapply lookup_lt_Some, Hi. }
  destruct (lookup_lt_is_Some_2 _ _ Hid) as [d Hd].
  destruct (extracted_entry P self _ _ _ _ _ _ _ Hdata Hd)
    as (full_date & t' & (_ & _ & _ & Hhour & _) & Ht' & _ & ->).
  rewrite Hi in Ht'. injection Ht' as ->.
  exists (datetime.hour full_date). split; [exact Hhour|].
  rewrite Hfmt. reflexivity.
Qed.

Lemma extracted_times_fall_into_hours_sample :
  exists n, (0 <= n <= 23)%Z /\ "22" = datetime.two_digits n.
Proof.
  apply (extracted_times_fall_into_hours Sample.platform Sample.self Sample.soup
           ["Alice"; "Bob"; "Alice"] ["see you  then"; "ok"; "None"]
           ["04/04/17"; "03/04/17"; "03/04/17"] ["09:45"; "22:05"; "09:15"] "22").
  - reflexivity.
  - vm_compute. reflexivity.
  - vm_compute. apply list_elem_of_further, list_elem_of_here.
Defined.
